(** * reprodl: the ESC-50 dataset wrapper, the AudioNet classifier and the
    training entry point of [training.py].

    The numeric kernels of torchaudio and torch (resampling, mel filter
    banks, convolutions), the allocator of the machine and the schedule of
    the trainer are not part of the repository.  They appear here as the
    fields of interfaces and of the world; everything [training.py] itself
    decides (which rows are kept, which file is opened, the order in which
    the kernels are chained, the widths of the layers, the order of the
    calls of [train]) is written out. *)

From Stdlib Require Import Ascii QArith Qcanon.
From stdpp Require Import base option list strings numbers.

Local Open Scope string_scope.
Local Open Scope Z_scope.
Local Open Scope list_scope.

(** ** Paths *)

(** [pathlib.Path] values are kept as strings.  [a / b] keeps [b] alone when
    [b] is absolute and joins with a separator otherwise. *)
Definition Path := string.

Definition is_absolute (p : Path) : bool :=
  match p with
  | String "/"%char _ => true
  | _ => false
  end.

Definition path_div (a b : Path) : Path :=
  if is_absolute b then b else a +:+ "/" +:+ b.

Infix "</>" := path_div (at level 40, left associativity).

(** ** The manifest *)

(** One line of [meta/esc50.csv]: the columns the program reads. *)
Record csv_row := CsvRow {
  filename : string;
  fold : Z;
  target : Z
}.

Global Instance csv_row_eq_dec : EqDecision csv_row.
Proof. solve_decision. Defined.

(** A pandas frame: rows with their index labels.  Boolean-mask selection
    keeps the labels, [iloc] ignores them and goes by position. *)
Definition DataFrame := list (nat * csv_row).

Definition frame_of_rows (rows : list csv_row) : DataFrame :=
  imap (λ i r, (i, r)) rows.

(** [df[df["fold"].isin(folds)]] *)
Definition select_isin_fold (folds : list Z) (df : DataFrame) : DataFrame :=
  filter (λ lr, fold lr.2 ∈ folds) df.

(** [df.iloc[index]] with Python's negative positions; [None] is pandas'
    IndexError. *)
Definition iloc (df : DataFrame) (index : Z) : option csv_row :=
  let n := Z.of_nat (length df) in
  if decide (0 ≤ index < n) then snd <$> df !! Z.to_nat index
  else if decide (- n ≤ index < 0) then snd <$> df !! Z.to_nat (index + n)
  else None.

(** ** Transform objects of torchaudio: their static configuration *)

Record Resample := { orig_freq : Z; new_freq : Z }.
Record MelSpectrogram := { sample_rate : Z }.
Record AmplitudeToDB := { top_db : Z }.

Global Instance Resample_eq_dec : EqDecision Resample.
Proof. solve_decision. Defined.
Global Instance MelSpectrogram_eq_dec : EqDecision MelSpectrogram.
Proof. solve_decision. Defined.
Global Instance AmplitudeToDB_eq_dec : EqDecision AmplitudeToDB.
Proof. solve_decision. Defined.

(** ** The dataset object *)

Record ESC50Dataset := {
  ds_path : Path;
  ds_csv : DataFrame;
  ds_resample : Resample;
  ds_melspec : MelSpectrogram;
  ds_db : AmplitudeToDB
}.

(** Defaults of [ESC50Dataset.__init__]. *)
Definition default_path : Path := "data/ESC-50".
Definition default_sample_rate : Z := 8000.
Definition default_folds : list Z := [1].

(** ** Errors *)

Inductive exn :=
| FileNotFoundError (p : Path)   (* pd.read_csv on a missing manifest *)
| LoadError (p : Path)           (* torchaudio.load on a missing or unreadable file *)
| IndexError (i : Z)             (* iloc out of bounds *)
| ValueError (msg : string)      (* rejected argument of a framework constructor *)
| RuntimeError (msg : string)    (* a tensor that cannot be created, or the trainer giving up *)
| ShapeError (msg : string).     (* a layer applied to a tensor it cannot take *)

Inductive result (A : Type) :=
| Ok (a : A)
| Raise (e : exn).
Arguments Ok {A} a.
Arguments Raise {A} e.

Definition result_bind {A B} (f : A → result B) (r : result A) : result B :=
  match r with
  | Ok a => f a
  | Raise e => Raise e
  end.

Global Instance result_ret : MRet result := @Ok.
Global Instance result_mbind : MBind result := @result_bind.

Definition is_Ok {A} (r : result A) : bool :=
  match r with Ok _ => true | Raise _ => false end.

(** ** Configuration (the hydra/OmegaConf tree read by [train]) *)

Section Float.

(** Python floats are left abstract: the program only passes them on. *)
Variable float : Type.

Record OptimCfg := { lr : float }.

Record ModelCfg := {
  base_filters : Z;
  num_classes : Z;
  optim : OptimCfg
}.

Record DataCfg := {
  data_path : Path;
  data_sample_rate : Z;
  batch_size : Z;
  train_folds : list Z;
  val_folds : list Z;
  test_folds : list Z
}.

Record DictConfig := {
  seed : Z;
  data : DataCfg;
  model : ModelCfg;
  trainer : list (string * Z)      (* forwarded verbatim to pl.Trainer *)
}.

(** [wandb.config]: the three swept hyper-parameters. *)
Record WandbConfig := {
  wc_base_filters : Z;
  wc_lr : float;
  wc_sample_rate : Z
}.

End Float.

Arguments lr {float} _.
Arguments base_filters {float} _.
Arguments num_classes {float} _.
Arguments optim {float} _.
Arguments seed {float} _.
Arguments data {float} _.
Arguments model {float} _.
Arguments trainer {float} _.
Arguments wc_base_filters {float} _.
Arguments wc_lr {float} _.
Arguments wc_sample_rate {float} _.

(** ** Layers of [torch.nn]: their static configuration *)

Record Conv2d := {
  in_channels : Z;
  out_channels : Z;
  kernel_size : Z;
  padding : Z
}.
Record BatchNorm2d := { num_features : Z }.
Record MaxPool2d := { pool_kernel : Z }.
Record Linear := { in_features : Z; out_features : Z }.

Global Instance Conv2d_eq_dec : EqDecision Conv2d.
Proof. solve_decision. Defined.
Global Instance BatchNorm2d_eq_dec : EqDecision BatchNorm2d.
Proof. solve_decision. Defined.
Global Instance MaxPool2d_eq_dec : EqDecision MaxPool2d.
Proof. solve_decision. Defined.
Global Instance Linear_eq_dec : EqDecision Linear.
Proof. solve_decision. Defined.

(** ** Parameter tensors *)

(** The machine the program runs on, by the one thing the constructors ask
    of it: whether its allocator grants a block of that many bytes. *)
Class Machine := { can_allocate : Z → bool }.

(** The largest storage, in bytes, that torch computes a size for. *)
Definition storage_max : Z := 2 ^ 63 - 1.

Definition numel (sizes : list Z) : Z := foldr Z.mul 1 sizes.

(** What it takes for a tensor of [itemsize]-byte elements to be created:
    no negative dimension, a byte size within [storage_max], and a block of
    that size from the allocator. *)
Definition tensor_fits `{Machine} (itemsize : Z) (sizes : list Z) : Prop :=
  Forall (λ d, 0 ≤ d) sizes
  ∧ itemsize * numel sizes ≤ storage_max
  ∧ can_allocate (itemsize * numel sizes) = true.

(** Modelled from the spec: [torch.empty] is not part of the repository.
    It refuses a negative dimension, then a storage whose byte size
    overflows, then fails when the allocator does not grant the block. *)
Definition torch_empty `{Machine} (itemsize : Z) (sizes : list Z) : result unit :=
  if decide (Forall (λ d, 0 ≤ d) sizes) then
    if decide (itemsize * numel sizes ≤ storage_max) then
      if can_allocate (itemsize * numel sizes) then Ok tt
      else Raise (RuntimeError "can't allocate memory")
    else Raise (RuntimeError "Storage size calculation overflowed")
  else Raise (RuntimeError "Trying to create tensor with negative dimension").

(** Modelled from the spec: the constructors of [torch.nn] are not part of
    the repository.  Each creates the parameter tensors of its layer, of
    4-byte floats but for the 8-byte counter of a batch norm, and fails when
    one of them cannot be created. *)
Definition nn_Conv2d `{Machine} (cin cout k pad : Z) : result Conv2d :=
  torch_empty 4 [cout; cin; k; k];;     (* weight *)
  torch_empty 4 [cout];;                (* bias *)
  mret {| in_channels := cin; out_channels := cout;
          kernel_size := k; padding := pad |}.

Definition nn_BatchNorm2d `{Machine} (n : Z) : result BatchNorm2d :=
  torch_empty 4 [n];;                   (* weight *)
  torch_empty 4 [n];;                   (* bias *)
  torch_empty 4 [n];;                   (* running_mean *)
  torch_empty 4 [n];;                   (* running_var *)
  torch_empty 8 [];;                    (* num_batches_tracked *)
  mret {| num_features := n |}.

Definition nn_MaxPool2d (k : Z) : result MaxPool2d :=
  Ok {| pool_kernel := k |}.

Definition nn_Linear `{Machine} (i o : Z) : result Linear :=
  torch_empty 4 [o; i];;                (* weight *)
  torch_empty 4 [o];;                   (* bias *)
  mret {| in_features := i; out_features := o |}.

(** ** AudioNet *)

Record AudioNet := {
  conv1 : Conv2d;  bn1 : BatchNorm2d;
  conv2 : Conv2d;  bn2 : BatchNorm2d;
  pool1 : MaxPool2d;
  conv3 : Conv2d;  bn3 : BatchNorm2d;
  conv4 : Conv2d;  bn4 : BatchNorm2d;
  pool2 : MaxPool2d;
  fc1 : Linear
}.

(** [AudioNet.__init__] *)
Definition AudioNet_init `{Machine} {float} (hparams : ModelCfg float)
    : result AudioNet :=
  c1 ← nn_Conv2d 1 (base_filters hparams) 11 5;
  b1 ← nn_BatchNorm2d (base_filters hparams);
  c2 ← nn_Conv2d (base_filters hparams) (base_filters hparams) 3 1;
  b2 ← nn_BatchNorm2d (base_filters hparams);
  p1 ← nn_MaxPool2d 2;
  c3 ← nn_Conv2d (base_filters hparams) (base_filters hparams * 2) 3 1;
  b3 ← nn_BatchNorm2d (base_filters hparams * 2);
  c4 ← nn_Conv2d (base_filters hparams * 2) (base_filters hparams * 4) 3 1;
  b4 ← nn_BatchNorm2d (base_filters hparams * 4);
  p2 ← nn_MaxPool2d 2;
  f1 ← nn_Linear (base_filters hparams * 4) (num_classes hparams);
  mret {| conv1 := c1; bn1 := b1; conv2 := c2; bn2 := b2; pool1 := p1;
          conv3 := c3; bn3 := b3; conv4 := c4; bn4 := b4; pool2 := p2;
          fc1 := f1 |}.

(** The parameter tensors that [AudioNet.__init__] has created by the time
    it returns, by element size and shape, for [F] base filters and [K]
    classes. *)
Definition AudioNet_parameters (F K : Z) : list (Z * list Z) :=
  [ (4, [F; 1; 11; 11]); (4, [F]); (8, []);
    (4, [F; F; 3; 3]);
    (4, [F * 2; F; 3; 3]); (4, [F * 2]);
    (4, [F * 4; F * 2; 3; 3]); (4, [F * 4]);
    (4, [K; F * 4]); (4, [K]) ].

(** ** Shapes *)

(** The forward pass is followed on tensor shapes; the float contents of
    the tensors are not modelled. *)
Definition shape := list Z.

(** The tensor operations a forward pass is made of. *)
Inductive op :=
| OpConv2d (c : Conv2d)
| OpBatchNorm2d (b : BatchNorm2d)
| OpRelu
| OpMaxPool2d (p : MaxPool2d)
| OpAdaptiveAvgPool2d (oh ow : Z)
| OpSelect00                       (* x[:, :, 0, 0] *)
| OpLinear (l : Linear)
| OpSoftmax (dim : Z).

Global Instance op_eq_dec : EqDecision op.
Proof. solve_decision. Defined.

(** Output extent of a stride-1 convolution along one axis. *)
Definition conv_out (k pad n : Z) : Z := n + 2 * pad - k + 1.

(** Modelled from the spec: the layers themselves belong to torch.  A
    stride-1 convolution and a batch norm want the channel count they were
    built for, pooling divides each extent by its window (rounding down) and
    needs something left, the adaptive pooling yields the extent it is asked
    for, and the linear layer maps its input width to its output width. *)
Definition op_shape (o : op) (x : shape) : result shape :=
  match o, x with
  | OpConv2d c, [n; ch; h; w] =>
      if decide (ch = in_channels c
                 ∧ kernel_size c ≤ h + 2 * padding c
                 ∧ kernel_size c ≤ w + 2 * padding c)
      then Ok [n; out_channels c;
               conv_out (kernel_size c) (padding c) h;
               conv_out (kernel_size c) (padding c) w]
      else Raise (ShapeError "conv2d")
  | OpBatchNorm2d b, [n; ch; h; w] =>
      if decide (ch = num_features b) then Ok x
      else Raise (ShapeError "batch_norm")
  | OpRelu, _ => Ok x
  | OpMaxPool2d p, [n; ch; h; w] =>
      if decide (0 < pool_kernel p ∧ 0 < h / pool_kernel p ∧ 0 < w / pool_kernel p)
      then Ok [n; ch; h / pool_kernel p; w / pool_kernel p]
      else Raise (ShapeError "max_pool2d: output size is too small")
  | OpAdaptiveAvgPool2d oh ow, [n; ch; h; w] =>
      if decide (0 < h ∧ 0 < w) then Ok [n; ch; oh; ow]
      else Raise (ShapeError "adaptive_avg_pool2d")
  | OpSelect00, [n; ch; h; w] =>
      if decide (0 < h ∧ 0 < w) then Ok [n; ch]
      else Raise (IndexError 0)
  | OpLinear l, [n; f] =>
      if decide (f = in_features l) then Ok [n; out_features l]
      else Raise (ShapeError "linear")
  | OpSoftmax _, _ => Ok x
  | _, _ => Raise (ShapeError "rank")
  end.

Fixpoint run_shape (ops : list op) (x : shape) : result shape :=
  match ops with
  | [] => Ok x
  | o :: ops' => x' ← op_shape o x; run_shape ops' x'
  end.

(** [AudioNet.forward], one operation per application in the source. *)
Definition forward (self : AudioNet) : list op :=
  [ OpConv2d (conv1 self);
    OpBatchNorm2d (bn1 self); OpRelu;
    OpConv2d (conv2 self);
    OpBatchNorm2d (bn2 self); OpRelu;
    OpMaxPool2d (pool1 self);
    OpConv2d (conv3 self);
    OpBatchNorm2d (bn3 self); OpRelu;
    OpConv2d (conv4 self);
    OpBatchNorm2d (bn4 self); OpRelu;
    OpMaxPool2d (pool2 self);
    OpAdaptiveAvgPool2d 1 1;
    OpSelect00;
    OpLinear (fc1 self) ].

(** ** Loaders, events and the world *)

Record DataLoader := {
  dl_dataset : ESC50Dataset;
  dl_batch_size : Z;
  dl_shuffle : bool
}.

(** Modelled from the spec: the numeric kernels belong to torchaudio and
    torch, not to the repository.  Each transform stage is a function of
    its static configuration and of its input, and so is the network applied
    to a batch. *)
Class Framework := {
  float : Type;
  waveform : Type;       (* a (channels, samples) float tensor *)
  spectrogram : Type;    (* a (channels, n_mels, frames) float tensor *)
  tensor : Type;         (* a batch of feature maps *)
  (* the kernels of torchaudio: functions of the transform's configuration
     and of its input *)
  resample_kernel : Resample → waveform → waveform;
  melspec_kernel : MelSpectrogram → waveform → spectrogram;
  db_kernel : AmplitudeToDB → spectrogram → spectrogram;
  (* [self(x)]: the logits of a batch, one row per sample *)
  net_call : AudioNet → tensor → list (list float);
  float_ltb : float → float → bool
}.

Section Program.

Context `{FW : Framework} `{MA : Machine}.

(** What the program does to the outside, in the order it does it. *)
Inductive event :=
| EvLoggerInfo (cfg : DictConfig float)
| EvWandbInit (config : WandbConfig float)
| EvReadCsv (p : Path)
| EvAudioLoad (p : Path)
| EvDataLoader (dl : DataLoader)
| EvSeedEverything (s : Z)
| EvWandbLogger
| EvAudioNet (hparams : ModelCfg float)
| EvTrainer (kwargs : list (string * Z))
| EvFit (net : AudioNet) (train_loader val_loader : DataLoader)
| EvLog (name : string) (value : Qc) (on_step : option bool)
        (on_epoch prog_bar : bool).

(** Modelled from the spec: [trainer.fit] belongs to pytorch_lightning.
    What it does with what it is given comes down, for this program, to
    steps of four kinds: it asks the dataset of the train loader or of the
    validation loader for an item, it records what a step function logs, or
    it gives up. *)
Inductive fit_step :=
| FitTrainItem (index : Z)     (* [train_loader.dataset[index]] *)
| FitValItem (index : Z)       (* [val_loader.dataset[index]] *)
| FitLog (name : string) (value : Qc) (on_step : option bool)
         (on_epoch prog_bar : bool)
| FitRaise (e : exn).

Record world := {
  fs_manifest : Path → option (list csv_row);   (* readable CSV files *)
  fs_audio : Path → option (waveform * Z);      (* readable audio files, with their rate *)
  original_cwd : Path;
  sweep : WandbConfig float → WandbConfig float; (* what the sweep agent injects *)
  (* the steps the trainer goes through when asked to fit *)
  fit_plan : AudioNet → DataLoader → DataLoader → list fit_step;
  trace : list event
}.

Definition IO (A : Type) : Type := world → result A * world.

Definition io_ret {A} (a : A) : IO A := λ w, (Ok a, w).

Definition io_bind {A B} (f : A → IO B) (m : IO A) : IO B :=
  λ w, match m w with
       | (Ok a, w') => f a w'
       | (Raise e, w') => (Raise e, w')
       end.

Global Instance IO_ret : MRet IO := @io_ret.
Global Instance IO_bind : MBind IO := @io_bind.

Definition lift {A} (r : result A) : IO A := λ w, (r, w).

Definition record_event (e : event) (w : world) : world :=
  {| fs_manifest := fs_manifest w; fs_audio := fs_audio w;
     original_cwd := original_cwd w; sweep := sweep w;
     fit_plan := fit_plan w;
     trace := trace w ++ [e] |}.

Definition emit (e : event) : IO unit := λ w, (Ok tt, record_event e w).

Definition ask {A} (f : world → A) : IO A := λ w, (Ok (f w), w).

(** [pd.read_csv]; a manifest that is not there is an error. *)
Definition pd_read_csv (p : Path) : IO DataFrame :=
  emit (EvReadCsv p);;
  found ← ask (λ w, fs_manifest w p);
  match found with
  | Some rows => mret (frame_of_rows rows)
  | None => lift (Raise (FileNotFoundError p))
  end.

(** Modelled from the spec: [torchaudio.load] is not part of the
    repository; it returns the samples and their rate, and fails with a
    load error when the file is missing or unreadable. *)
Definition torchaudio_load (p : Path) : IO (waveform * Z) :=
  emit (EvAudioLoad p);;
  found ← ask (λ w, fs_audio w p);
  match found with
  | Some wav_sr => mret wav_sr
  | None => lift (Raise (LoadError p))
  end.

(** *** ESC50Dataset *)

(** [ESC50Dataset.__init__]; an omitted keyword argument is [None]. *)
Definition ESC50Dataset_init (path : option Path) (sample_rate : option Z)
    (folds : option (list Z)) : IO ESC50Dataset :=
  let path := default default_path path in
  let sample_rate := default default_sample_rate sample_rate in
  let folds := default default_folds folds in
  csv ← pd_read_csv (path </> "meta/esc50.csv");
  let csv := select_isin_fold folds csv in
  mret {| ds_path := path;
          ds_csv := csv;
          ds_resample := {| orig_freq := 44100; new_freq := sample_rate |};
          ds_melspec := {| sample_rate := sample_rate |};
          ds_db := {| top_db := 80 |} |}.

(** [ESC50Dataset.__getitem__] *)
Definition ESC50Dataset_getitem (self : ESC50Dataset) (index : Z)
    : IO (spectrogram * Z) :=
  row ← lift (from_option Ok (Raise (IndexError index)) (iloc (ds_csv self) index));
  '(wav, _) ← torchaudio_load (ds_path self </> "audio" </> filename row);
  let label := target row in
  let xb := db_kernel (ds_db self)
              (melspec_kernel (ds_melspec self)
                 (resample_kernel (ds_resample self) wav)) in
  mret (xb, label).

(** [ESC50Dataset.__len__] *)
Definition ESC50Dataset_len (self : ESC50Dataset) : Z :=
  Z.of_nat (length (ds_csv self)).

(** *** Validation step *)

(** [torch.argmax] along one row: the first position of the largest value. *)
Fixpoint argmax_from (best_i : nat) (best : float) (i : nat) (l : list float) : nat :=
  match l with
  | [] => best_i
  | v :: l' =>
      if float_ltb best v then argmax_from i v (S i) l'
      else argmax_from best_i best (S i) l'
  end.

Definition argmax_row (l : list float) : result Z :=
  match l with
  | [] => Raise (IndexError 0)
  | v :: l' => Ok (Z.of_nat (argmax_from 0 v 1 l'))
  end.

(** [torch.argmax(y_hat, dim=1)] *)
Fixpoint torch_argmax_dim1 (y_hat : list (list float)) : result (list Z) :=
  match y_hat with
  | [] => Ok []
  | r :: rs => c ← argmax_row r; cs ← torch_argmax_dim1 rs; mret (c :: cs)
  end.

Definition count_correct (pred target : list Z) : nat :=
  length (filter (λ pt, pt.1 = pt.2) (zip pred target)).

Definition Qc_of_nat (n : nat) : Qc := Q2Qc (inject_Z (Z.of_nat n)).

(** Modelled from the spec: [functional.accuracy] belongs to
    pytorch_lightning, not to the repository.  It is the share of positions
    at which the predicted class is the label; inputs of different lengths,
    and empty inputs, are refused. *)
Definition functional_accuracy (pred target : list Z) : result Qc :=
  if decide (length pred = length target) then
    if decide (target = []) then Raise (ValueError "accuracy: empty input")
    else Ok (Qc_of_nat (count_correct pred target) / Qc_of_nat (length target))%Qc
  else Raise (ShapeError "accuracy: shape mismatch").

(** [self.log] *)
Definition self_log (name : string) (value : Qc) (on_step : option bool)
    (on_epoch prog_bar : bool) : IO unit :=
  emit (EvLog name value on_step on_epoch prog_bar).

(** [AudioNet.validation_step] *)
Definition validation_step (self : AudioNet) (batch : tensor * list Z)
    (batch_idx : Z) : IO Qc :=
  let '(x, y) := batch in
  let y_hat := net_call self x in
  y_hat ← lift (torch_argmax_dim1 y_hat);
  acc ← lift (functional_accuracy y_hat y);
  self_log "val_acc" acc None true true;;
  mret acc.

(** *** The entry point *)

Definition set_sample_rate (v : Z) (cfg : DictConfig float) : DictConfig float :=
  {| seed := seed cfg;
     data := {| data_path := data_path (data cfg);
                data_sample_rate := v;
                batch_size := batch_size (data cfg);
                train_folds := train_folds (data cfg);
                val_folds := val_folds (data cfg);
                test_folds := test_folds (data cfg) |};
     model := model cfg;
     trainer := trainer cfg |}.

Definition set_base_filters (v : Z) (cfg : DictConfig float) : DictConfig float :=
  {| seed := seed cfg;
     data := data cfg;
     model := {| base_filters := v;
                 num_classes := num_classes (model cfg);
                 optim := optim (model cfg) |};
     trainer := trainer cfg |}.

Definition set_lr (v : float) (cfg : DictConfig float) : DictConfig float :=
  {| seed := seed cfg;
     data := data cfg;
     model := {| base_filters := base_filters (model cfg);
                 num_classes := num_classes (model cfg);
                 optim := {| lr := v |} |};
     trainer := trainer cfg |}.

(** [logger.info(OmegaConf.to_yaml(cfg))] *)
Definition logger_info (cfg : DictConfig float) : IO unit :=
  emit (EvLoggerInfo cfg).

(** [wandb.init(config=...)] followed by reading [wandb.config]: the
    defaults, with whatever the sweep agent put in their place. *)
Definition wandb_init (config : WandbConfig float) : IO (WandbConfig float) :=
  emit (EvWandbInit config);;
  ask (λ w, sweep w config).

Definition get_original_cwd : IO Path := ask original_cwd.

(** Modelled from the spec: [torch.utils.data.DataLoader] is not part of
    the repository.  With shuffling it builds a random sampler, which
    refuses a dataset without items; then it builds the batch sampler, which
    refuses a batch size that is not positive. *)
Definition torch_DataLoader (dataset : ESC50Dataset) (bs : Z) (shuffle : bool)
    : IO DataLoader :=
  (if shuffle then
     if decide (0 < ESC50Dataset_len dataset) then mret tt
     else lift (Raise (ValueError "num_samples should be a positive integer value"))
   else mret tt);;
  if decide (0 < bs) then
    let dl := {| dl_dataset := dataset; dl_batch_size := bs; dl_shuffle := shuffle |} in
    emit (EvDataLoader dl);; mret dl
  else lift (Raise (ValueError "batch_size should be a positive integer value")).

Definition pl_seed_everything (s : Z) : IO unit := emit (EvSeedEverything s).

Definition pl_WandbLogger : IO unit := emit EvWandbLogger.

(** [AudioNet(cfg.model)]: the layers draw their initial weights here. *)
Definition new_AudioNet (hparams : ModelCfg float) : IO AudioNet :=
  emit (EvAudioNet hparams);;
  lift (AudioNet_init hparams).

Definition pl_Trainer (kwargs : list (string * Z)) : IO (list (string * Z)) :=
  emit (EvTrainer kwargs);; mret kwargs.

(** One step of the trainer: an item is fetched through [__getitem__], and
    an error in it ends the fit. *)
Definition run_fit_step (train_loader val_loader : DataLoader) (s : fit_step)
    : IO unit :=
  match s with
  | FitTrainItem index =>
      ESC50Dataset_getitem (dl_dataset train_loader) index;; mret tt
  | FitValItem index =>
      ESC50Dataset_getitem (dl_dataset val_loader) index;; mret tt
  | FitLog name value on_step on_epoch prog_bar =>
      self_log name value on_step on_epoch prog_bar
  | FitRaise e => lift (Raise e)
  end.

Fixpoint run_fit (train_loader val_loader : DataLoader) (plan : list fit_step)
    : IO unit :=
  match plan with
  | [] => mret tt
  | s :: plan' =>
      run_fit_step train_loader val_loader s;;
      run_fit train_loader val_loader plan'
  end.

(** [trainer.fit(audionet, train_loader, val_loader)] *)
Definition trainer_fit (net : AudioNet) (train_loader val_loader : DataLoader)
    : IO unit :=
  emit (EvFit net train_loader val_loader);;
  plan ← ask (λ w, fit_plan w net train_loader val_loader);
  run_fit train_loader val_loader plan.

(** [train] *)
Definition train (cfg : DictConfig float) : IO unit :=
  logger_info cfg;;
  let hparams_default :=
    {| wc_base_filters := base_filters (model cfg);
       wc_lr := lr (optim (model cfg));
       wc_sample_rate := data_sample_rate (data cfg) |} in
  wandb_config_omega ← wandb_init hparams_default;
  let cfg := set_sample_rate (wc_sample_rate wandb_config_omega) cfg in
  let cfg := set_base_filters (wc_base_filters wandb_config_omega) cfg in
  let cfg := set_lr (wc_lr wandb_config_omega) cfg in
  cwd ← get_original_cwd;
  let path := cwd </> data_path (data cfg) in
  train_data ← ESC50Dataset_init (Some path) None (Some (train_folds (data cfg)));
  val_data ← ESC50Dataset_init (Some path) None (Some (val_folds (data cfg)));
  test_data ← ESC50Dataset_init (Some path) None (Some (test_folds (data cfg)));
  train_loader ← torch_DataLoader train_data (batch_size (data cfg)) true;
  val_loader ← torch_DataLoader val_data (batch_size (data cfg)) false;
  test_loader ← torch_DataLoader test_data (batch_size (data cfg)) false;
  pl_seed_everything (seed cfg);;
  pl_WandbLogger;;
  audionet ← new_AudioNet (model cfg);
  trainer ← pl_Trainer (trainer cfg);
  trainer_fit audionet train_loader val_loader.

(** *** The optimizer *)

(** [torch.optim.Adam], by the one setting the program gives it. *)
Record Adam := { adam_lr : float }.

(** [AudioNet.configure_optimizers]; [self.hparams] is what [__init__]
    saved, the configuration the network was built from. *)
Definition configure_optimizers (hparams : ModelCfg float) : Adam :=
  {| adam_lr := lr (optim hparams) |}.

(** *** Reading a run *)

(** The events a run added to the trace. *)
Definition events_since (w w' : world) : list event :=
  drop (length (trace w)) (trace w').

Inductive event_kind :=
| KLoggerInfo | KWandbInit | KReadCsv | KAudioLoad | KDataLoader
| KSeedEverything | KWandbLogger | KAudioNet | KTrainer | KFit | KLog.

Global Instance event_kind_eq_dec : EqDecision event_kind.
Proof. solve_decision. Defined.

Definition kind_of (e : event) : event_kind :=
  match e with
  | EvLoggerInfo _ => KLoggerInfo
  | EvWandbInit _ => KWandbInit
  | EvReadCsv _ => KReadCsv
  | EvAudioLoad _ => KAudioLoad
  | EvDataLoader _ => KDataLoader
  | EvSeedEverything _ => KSeedEverything
  | EvWandbLogger => KWandbLogger
  | EvAudioNet _ => KAudioNet
  | EvTrainer _ => KTrainer
  | EvFit _ _ _ => KFit
  | EvLog _ _ _ _ _ => KLog
  end.

(** The loaders built during a run, in the order they were built. *)
Definition loaders_of (evs : list event) : list DataLoader :=
  omap (λ e, match e with EvDataLoader dl => Some dl | _ => None end) evs.

(** *** The run of [train], written out

    What [train] leaves in the trace and what it returns, as closed
    expressions of the configuration and of the world it starts in.  They
    are shown below to be what [train] computes. *)

Definition swept_model (cfg : DictConfig float) (w : world) : ModelCfg float :=
  let c := sweep w {| wc_base_filters := base_filters (model cfg);
                      wc_lr := lr (optim (model cfg));
                      wc_sample_rate := data_sample_rate (data cfg) |} in
  {| base_filters := wc_base_filters c;
     num_classes := num_classes (model cfg);
     optim := {| lr := wc_lr c |} |}.

Definition train_root (cfg : DictConfig float) (w : world) : Path :=
  original_cwd w </> data_path (data cfg).

Definition train_dataset (cfg : DictConfig float) (w : world)
    (rows : list csv_row) (folds : list Z) : ESC50Dataset :=
  {| ds_path := train_root cfg w;
     ds_csv := select_isin_fold folds (frame_of_rows rows);
     ds_resample := {| orig_freq := 44100; new_freq := 8000 |};
     ds_melspec := {| sample_rate := 8000 |};
     ds_db := {| top_db := 80 |} |}.

Definition train_loaders (cfg : DictConfig float) (w : world)
    (rows : list csv_row) : list DataLoader :=
  [ {| dl_dataset := train_dataset cfg w rows (train_folds (data cfg));
       dl_batch_size := batch_size (data cfg); dl_shuffle := true |};
    {| dl_dataset := train_dataset cfg w rows (val_folds (data cfg));
       dl_batch_size := batch_size (data cfg); dl_shuffle := false |};
    {| dl_dataset := train_dataset cfg w rows (test_folds (data cfg));
       dl_batch_size := batch_size (data cfg); dl_shuffle := false |} ].

(** The events of the calls that [train] makes itself, up to handing over
    to the fit. *)
Definition train_trace (cfg : DictConfig float) (w : world) : list event :=
  let manifest := train_root cfg w </> "meta/esc50.csv" in
  [ EvLoggerInfo cfg;
    EvWandbInit {| wc_base_filters := base_filters (model cfg);
                   wc_lr := lr (optim (model cfg));
                   wc_sample_rate := data_sample_rate (data cfg) |};
    EvReadCsv manifest ]
  ++ match fs_manifest w manifest with
     | None => []
     | Some rows =>
         [ EvReadCsv manifest; EvReadCsv manifest ]
         ++ if decide (0 < ESC50Dataset_len
                              (train_dataset cfg w rows (train_folds (data cfg)))
                       ∧ 0 < batch_size (data cfg)) then
              (EvDataLoader <$> train_loaders cfg w rows)
              ++ [ EvSeedEverything (seed cfg); EvWandbLogger;
                   EvAudioNet (swept_model cfg w) ]
              ++ match AudioNet_init (swept_model cfg w) with
                 | Ok net =>
                     [ EvTrainer (trainer cfg);
                       EvFit net
                         {| dl_dataset := train_dataset cfg w rows (train_folds (data cfg));
                            dl_batch_size := batch_size (data cfg); dl_shuffle := true |}
                         {| dl_dataset := train_dataset cfg w rows (val_folds (data cfg));
                            dl_batch_size := batch_size (data cfg); dl_shuffle := false |} ]
                 | Raise _ => []
                 end
            else []
     end.

(** How far [train] gets by itself: the network it hands to the fit, or
    the error that stops it before. *)
Definition train_setup (cfg : DictConfig float) (w : world) : result AudioNet :=
  let manifest := train_root cfg w </> "meta/esc50.csv" in
  match fs_manifest w manifest with
  | None => Raise (FileNotFoundError manifest)
  | Some rows =>
      if decide (0 < ESC50Dataset_len
                       (train_dataset cfg w rows (train_folds (data cfg)))) then
        if decide (0 < batch_size (data cfg)) then AudioNet_init (swept_model cfg w)
        else Raise (ValueError "batch_size should be a positive integer value")
      else Raise (ValueError "num_samples should be a positive integer value")
  end.

(** What the fit may add to the trace: audio loads and logged values. *)
Definition fit_kind (e : event) : Prop :=
  kind_of e = KAudioLoad ∨ kind_of e = KLog.

End Program.

(** ** Reading a sequence of event kinds *)





(** Number of manifest rows whose fold is one of [folds]. *)
Fixpoint count_fold_rows (folds : list Z) (rows : list csv_row) : nat :=
  match rows with
  | [] => 0
  | r :: rows' =>
      (if bool_decide (fold r ∈ folds) then 1 else 0) + count_fold_rows folds rows'
  end%nat.

(** The rows of a manifest that a fold selection retains, in file order. *)
Definition retained_rows (folds : list Z) (rows : list csv_row) : list csv_row :=
  filter (λ r, fold r ∈ folds) rows.

(** ** A small instance, on which the definitions run *)

(** Integers stand for floats and lists for tensors; each kernel tags its
    input with its configuration, so that the order of the stages and the
    rates they were built with can be read off the result. *)
#[local] Instance toy : Framework := {|
  float := Z;
  waveform := list Z;
  spectrogram := list Z;
  tensor := list (list Z);
  resample_kernel t wav := orig_freq t :: new_freq t :: wav;
  melspec_kernel t wav := sample_rate t :: wav;
  db_kernel t s := top_db t :: s;
  net_call _ x := x;
  float_ltb := Z.ltb
|}.

(** A machine that grants blocks of up to 16 GiB. *)
#[local] Instance toy_machine : Machine := {| can_allocate n := n <=? 2 ^ 34 |}.

Definition toy_rows : list csv_row :=
  [ CsvRow "1-100032-A-0.wav" 1 0;
    CsvRow "1-100038-A-14.wav" 1 14;
    CsvRow "2-100210-A-36.wav" 2 36;
    CsvRow "4-102844-A-49.wav" 4 49;
    CsvRow "5-103415-A-2.wav" 5 2 ].

(** One manifest, and one audio file: the clip of the first row, stored at
    22050 Hz.  The other clips are missing.  The trainer asks for the first
    item of the train dataset, logs a loss, and asks for the second item. *)
Definition toy_world : world := {|
  fs_manifest p :=
    if decide (p = "/home/user/reprodl/data/ESC-50/meta/esc50.csv")
    then Some toy_rows else None;
  fs_audio p :=
    if decide (p = "/home/user/reprodl/data/ESC-50/audio/1-100032-A-0.wav")
    then Some ([3; 1; 4], 22050) else None;
  original_cwd := "/home/user/reprodl";
  sweep c := {| wc_base_filters := 16; wc_lr := wc_lr c; wc_sample_rate := 16000 |};
  fit_plan _ _ _ :=
    [ FitTrainItem 0; FitLog "train_loss" 1%Qc (Some true) false false;
      FitTrainItem 1 ];
  trace := []
|}.

Definition toy_cfg : DictConfig Z := {|
  seed := 1234;
  data := {| data_path := "data/ESC-50"; data_sample_rate := 22050;
             batch_size := 8;
             train_folds := [1; 2; 3]; val_folds := [4]; test_folds := [5] |};
  model := {| base_filters := 32; num_classes := 50; optim := {| lr := 1 |} |};
  trainer := [("max_epochs", 250); ("gpus", 0)]
|}.

(** The dataset [ESC50Dataset(path, sample_rate=16000, folds=[1, 2])] over
    the toy manifest. *)
Definition toy_dataset : ESC50Dataset := {|
  ds_path := "/home/user/reprodl/data/ESC-50";
  ds_csv := select_isin_fold [1; 2] (frame_of_rows toy_rows);
  ds_resample := {| orig_freq := 44100; new_freq := 16000 |};
  ds_melspec := {| sample_rate := 16000 |};
  ds_db := {| top_db := 80 |}
|}.

Definition toy_root : Path := "/home/user/reprodl/data/ESC-50".

(** The toy world with the same clip stored at 48000 Hz. *)
Definition toy_world_48k : world := {|
  fs_manifest := fs_manifest toy_world;
  fs_audio p :=
    if decide (p = "/home/user/reprodl/data/ESC-50/audio/1-100032-A-0.wav")
    then Some ([3; 1; 4], 48000) else None;
  original_cwd := original_cwd toy_world;
  sweep := sweep toy_world;
  fit_plan := fit_plan toy_world;
  trace := []
|}.

(** [AudioNet] for [base_filters = 32] and [num_classes = 50]. *)
Definition toy_net : AudioNet := {|
  conv1 := {| in_channels := 1; out_channels := 32; kernel_size := 11; padding := 5 |};
  bn1 := {| num_features := 32 |};
  conv2 := {| in_channels := 32; out_channels := 32; kernel_size := 3; padding := 1 |};
  bn2 := {| num_features := 32 |};
  pool1 := {| pool_kernel := 2 |};
  conv3 := {| in_channels := 32; out_channels := 64; kernel_size := 3; padding := 1 |};
  bn3 := {| num_features := 64 |};
  conv4 := {| in_channels := 64; out_channels := 128; kernel_size := 3; padding := 1 |};
  bn4 := {| num_features := 128 |};
  pool2 := {| pool_kernel := 2 |};
  fc1 := {| in_features := 128; out_features := 50 |}
|}.

(** The dataset [ESC50Dataset(path, sample_rate=16000, folds=folds)] over the
    toy manifest. *)
Definition toy_dataset_folds (folds : list Z) : ESC50Dataset := {|
  ds_path := toy_root;
  ds_csv := select_isin_fold folds (frame_of_rows toy_rows);
  ds_resample := {| orig_freq := 44100; new_freq := 16000 |};
  ds_melspec := {| sample_rate := 16000 |};
  ds_db := {| top_db := 80 |}
|}.

(** The toy configuration pointed at a directory that holds no manifest. *)
Definition toy_cfg_nowhere : DictConfig Z := {|
  seed := 1234;
  data := {| data_path := "nowhere"; data_sample_rate := 22050;
             batch_size := 8;
             train_folds := [1; 2; 3]; val_folds := [4]; test_folds := [5] |};
  model := {| base_filters := 32; num_classes := 50; optim := {| lr := 1 |} |};
  trainer := [("max_epochs", 250); ("gpus", 0)]
|}.

(** The toy configuration with train folds that no row of the manifest
    carries. *)
Definition toy_cfg_no_train_rows : DictConfig Z := {|
  seed := 1234;
  data := {| data_path := "data/ESC-50"; data_sample_rate := 22050;
             batch_size := 8;
             train_folds := [7]; val_folds := [4]; test_folds := [5] |};
  model := {| base_filters := 32; num_classes := 50; optim := {| lr := 1 |} |};
  trainer := [("max_epochs", 250); ("gpus", 0)]
|}.

(** A model configuration with a positive width of 2^61 filters. *)
Definition toy_huge_hparams : ModelCfg Z :=
  {| base_filters := 2 ^ 61; num_classes := 50; optim := {| lr := 1 |} |}.

(** What the toy sweep makes of the toy model configuration, and the
    network built from it. *)
Definition toy_swept_hparams : ModelCfg Z :=
  {| base_filters := 16; num_classes := 50; optim := {| lr := 1 |} |}.

Definition toy_swept_net : AudioNet :=
  match AudioNet_init toy_swept_hparams with
  | Ok net => net
  | Raise _ => toy_net
  end.

Definition toy_loader (folds : list Z) (shuffle : bool) : DataLoader :=
  {| dl_dataset := train_dataset toy_cfg toy_world toy_rows folds;
     dl_batch_size := 8; dl_shuffle := shuffle |}.

(** * Properties *)

Section Properties.

Context `{FW : Framework} `{MA : Machine}.

(** ** The monad *)

Ltac io_unfold :=
  unfold ask, lift, emit, mbind, IO_bind, io_bind, mret, IO_ret, io_ret;
  cbn beta iota delta [fs_manifest fs_audio original_cwd sweep fit_plan trace
                       record_event].

Lemma emit_run (e : event) (w : world) : emit e w = (Ok tt, record_event e w).
Proof. reflexivity. Qed.

Lemma io_bind_run {A B} (f : A → IO B) (m : IO A) (w : world) :
  (m ≫= f) w = match m w with
               | (Ok a, w') => f a w'
               | (Raise e, w') => (Raise e, w')
               end.
Proof. reflexivity. Qed.

(** ** Frames *)

Lemma select_imap_rows (folds : list Z) (rows : list csv_row) (f : nat → nat) :
  (filter (λ lr : nat * csv_row, fold lr.2 ∈ folds) (imap (λ i r, (f i, r)) rows)).*2
  = retained_rows folds rows.
Proof.
  revert f. induction rows as [|r rows IH]; intros f; [done|].
  unfold retained_rows in *. cbn [imap]. rewrite !filter_cons. cbn [snd].
  destruct (decide (fold r ∈ folds)); cbn [fmap list_fmap snd];
    [f_equal|]; apply (IH (f ∘ S)).
Qed.

Lemma select_frame_rows (folds : list Z) (rows : list csv_row) :
  (select_isin_fold folds (frame_of_rows rows)).*2 = retained_rows folds rows.
Proof. apply (select_imap_rows folds rows id). Qed.

Lemma retained_rows_length (folds : list Z) (rows : list csv_row) :
  length (retained_rows folds rows) = count_fold_rows folds rows.
Proof.
  induction rows as [|r rows IH]; [done|].
  unfold retained_rows in *. rewrite filter_cons. cbn [count_fold_rows].
  destruct (decide (fold r ∈ folds)) as [Hin|Hout].
  - rewrite bool_decide_eq_true_2 by done. cbn. by rewrite IH.
  - rewrite bool_decide_eq_false_2 by done. cbn. by rewrite IH.
Qed.

Lemma count_fold_rows_none (folds : list Z) (rows : list csv_row) :
  Forall (λ r, fold r ∉ folds) rows → count_fold_rows folds rows = 0%nat.
Proof.
  induction 1 as [|r rows Hr _ IH]; [done|].
  cbn [count_fold_rows]. by rewrite bool_decide_eq_false_2, IH.
Qed.

Lemma iloc_lookup (df : DataFrame) (index : Z) :
  0 ≤ index < Z.of_nat (length df) →
  iloc df index = df.*2 !! Z.to_nat index.
Proof.
  intros Hi. unfold iloc. rewrite decide_True by done.
  by rewrite list_lookup_fmap.
Qed.

(** ** Construction of a dataset *)

Lemma ESC50Dataset_init_run (path : option Path) (sample_rate : option Z)
    (folds : option (list Z)) (w : world) (rows : list csv_row) :
  let p := default default_path path </> "meta/esc50.csv" in
  fs_manifest w p = Some rows →
  ESC50Dataset_init path sample_rate folds w
  = (Ok {| ds_path := default default_path path;
           ds_csv := select_isin_fold (default default_folds folds) (frame_of_rows rows);
           ds_resample := {| orig_freq := 44100;
                             new_freq := default default_sample_rate sample_rate |};
           ds_melspec := {| sample_rate := default default_sample_rate sample_rate |};
           ds_db := {| top_db := 80 |} |},
     record_event (EvReadCsv p) w).
Proof.
  intros p Hp. unfold ESC50Dataset_init, pd_read_csv. fold p. io_unfold.
  by rewrite Hp.
Qed.

(** ** Retrieval of an item *)

Lemma ESC50Dataset_getitem_run (self : ESC50Dataset) (index : Z) (w : world)
    (row : csv_row) :
  let p := ds_path self </> "audio" </> filename row in
  iloc (ds_csv self) index = Some row →
  ESC50Dataset_getitem self index w
  = (match fs_audio w p with
     | Some (wav, _) =>
         Ok (db_kernel (ds_db self)
               (melspec_kernel (ds_melspec self)
                  (resample_kernel (ds_resample self) wav)),
             target row)
     | None => Raise (LoadError p)
     end,
     record_event (EvAudioLoad p) w).
Proof.
  intros p Hrow. unfold ESC50Dataset_getitem, torchaudio_load.
  rewrite Hrow. cbn [from_option]. subst p. io_unfold.
  by destruct (fs_audio w _) as [[wav sr]|].
Qed.

(** C1.  Once the manifest has been read, the length of the dataset is the
    number of manifest rows whose fold is among the requested folds (the
    default folds when none are given); when no row has such a fold the
    length is 0. *)
Theorem ESC50Dataset_len_counts_fold_rows (path : option Path)
    (sample_rate : option Z) (folds : option (list Z)) (w : world)
    (rows : list csv_row) :
  fs_manifest w (default default_path path </> "meta/esc50.csv") = Some rows →
  ∃ ds w',
    ESC50Dataset_init path sample_rate folds w = (Ok ds, w')
    ∧ ESC50Dataset_len ds
      = Z.of_nat (count_fold_rows (default default_folds folds) rows)
    ∧ (Forall (λ r, fold r ∉ default default_folds folds) rows →
       ESC50Dataset_len ds = 0).
Proof.
  intros Hrows. eexists _, _.
  split; [by apply ESC50Dataset_init_run|].
  unfold ESC50Dataset_len. cbn [ds_csv].
  assert (length (select_isin_fold (default default_folds folds) (frame_of_rows rows))
          = count_fold_rows (default default_folds folds) rows) as ->.
  { rewrite <- retained_rows_length, <- select_frame_rows. by rewrite length_fmap. }
  split; [done|].
  intros Hnone. by rewrite count_fold_rows_none.
Qed.

(** C2.  For a dataset built from a manifest and a valid index, [get]
    takes the index-th retained row, loads the file
    [path/audio/filename] of that row and returns
    [AmplitudeToDB(MelSpectrogram(Resample(waveform)))] together with the
    target of the row; each stage is applied to the output of the one
    before, with the configuration fixed at construction. *)
Theorem ESC50Dataset_getitem_pipeline (path : option Path)
    (sample_rate : option Z) (folds : option (list Z)) (w0 w1 w : world)
    (rows : list csv_row) (ds : ESC50Dataset) (index : Z) (row : csv_row)
    (wav : waveform) (rate : Z) :
  fs_manifest w0 (default default_path path </> "meta/esc50.csv") = Some rows →
  ESC50Dataset_init path sample_rate folds w0 = (Ok ds, w1) →
  0 ≤ index < ESC50Dataset_len ds →
  retained_rows (default default_folds folds) rows !! Z.to_nat index = Some row →
  fs_audio w (default default_path path </> "audio" </> filename row)
  = Some (wav, rate) →
  ESC50Dataset_getitem ds index w
  = (Ok (db_kernel {| top_db := 80 |}
           (melspec_kernel
              {| sample_rate := default default_sample_rate sample_rate |}
              (resample_kernel
                 {| orig_freq := 44100;
                    new_freq := default default_sample_rate sample_rate |}
                 wav)),
         target row),
     record_event
       (EvAudioLoad (default default_path path </> "audio" </> filename row)) w).
Proof.
  intros Hrows Hinit Hindex Hrow Hfile.
  rewrite (ESC50Dataset_init_run _ _ _ _ _ Hrows) in Hinit.
  injection Hinit as <- _.
  unfold ESC50Dataset_len in Hindex. cbn [ds_csv] in Hindex.
  erewrite ESC50Dataset_getitem_run; cbn [ds_path ds_csv ds_db ds_melspec ds_resample].
  - by rewrite Hfile.
  - by rewrite iloc_lookup, select_frame_rows.
Qed.

(** C8.  When the file of the index-th retained row cannot be read, [get]
    raises [LoadError] for that file: the file was tried once, no pair is
    returned and nothing else was done. *)
Theorem ESC50Dataset_getitem_load_error (self : ESC50Dataset) (index : Z)
    (w : world) (l : nat) (row : csv_row) :
  0 ≤ index < ESC50Dataset_len self →
  ds_csv self !! Z.to_nat index = Some (l, row) →
  fs_audio w (ds_path self </> "audio" </> filename row) = None →
  ESC50Dataset_getitem self index w
  = (Raise (LoadError (ds_path self </> "audio" </> filename row)),
     record_event (EvAudioLoad (ds_path self </> "audio" </> filename row)) w).
Proof.
  intros Hindex Hrow Hfile.
  erewrite ESC50Dataset_getitem_run.
  - by rewrite Hfile.
  - unfold iloc. fold (ESC50Dataset_len self). rewrite decide_True by done.
    by rewrite Hrow.
Qed.

(** C9.  Every dataset is built with a resampler whose source rate is
    44100, and [get] drops the rate that the loader reports: two files with
    the same samples and different reported rates give the same item, the
    one resampled from 44100. *)
Theorem ESC50Dataset_resample_from_44100 (path : option Path)
    (sample_rate : option Z) (folds : option (list Z)) (w0 w1 w w' : world)
    (ds : ESC50Dataset) (index : Z) (row : csv_row) (wav : waveform)
    (rate rate' : Z) :
  ESC50Dataset_init path sample_rate folds w0 = (Ok ds, w1) →
  iloc (ds_csv ds) index = Some row →
  fs_audio w (ds_path ds </> "audio" </> filename row) = Some (wav, rate) →
  fs_audio w' (ds_path ds </> "audio" </> filename row) = Some (wav, rate') →
  orig_freq (ds_resample ds) = 44100
  ∧ (ESC50Dataset_getitem ds index w).1 = (ESC50Dataset_getitem ds index w').1
  ∧ (ESC50Dataset_getitem ds index w).1
    = Ok (db_kernel (ds_db ds)
            (melspec_kernel (ds_melspec ds)
               (resample_kernel
                  {| orig_freq := 44100; new_freq := new_freq (ds_resample ds) |}
                  wav)),
          target row).
Proof.
  intros Hinit Hrow Hfile Hfile'.
  assert (ds_resample ds
          = {| orig_freq := 44100; new_freq := new_freq (ds_resample ds) |}) as Hres.
  { revert Hinit. unfold ESC50Dataset_init, pd_read_csv. io_unfold.
    destruct (fs_manifest w0 _); [|done]. by intros [= <- _]. }
  rewrite !(ESC50Dataset_getitem_run _ _ _ _ Hrow), Hfile, Hfile'. cbn [fst].
  rewrite <- Hres. split; [by rewrite Hres|done].
Qed.

(** ** The network *)

Lemma result_bind_Ok {A B} (f : A → result B) (r : result A) (y : B) :
  result_bind f r = Ok y → ∃ x, r = Ok x ∧ f x = Ok y.
Proof. destruct r as [x|e]; [by exists x|done]. Qed.

Lemma torch_empty_fits (itemsize : Z) (sizes : list Z) :
  tensor_fits itemsize sizes → torch_empty itemsize sizes = Ok tt.
Proof.
  intros (Hdims & Hsize & Hgrant). unfold torch_empty.
  rewrite !decide_True by done. by rewrite Hgrant.
Qed.

Lemma nn_Conv2d_Ok (cin cout k pad : Z) (c : Conv2d) :
  nn_Conv2d cin cout k pad = Ok c →
  c = {| in_channels := cin; out_channels := cout;
         kernel_size := k; padding := pad |}.
Proof.
  unfold nn_Conv2d, mbind, result_mbind, mret, result_ret. intros Hc.
  repeat (apply result_bind_Ok in Hc as ([] & _ & Hc)). by injection Hc as <-.
Qed.

Lemma nn_BatchNorm2d_Ok (n : Z) (b : BatchNorm2d) :
  nn_BatchNorm2d n = Ok b → b = {| num_features := n |}.
Proof.
  unfold nn_BatchNorm2d, mbind, result_mbind, mret, result_ret. intros Hb.
  repeat (apply result_bind_Ok in Hb as ([] & _ & Hb)). by injection Hb as <-.
Qed.

Lemma nn_Linear_Ok (i o : Z) (l : Linear) :
  nn_Linear i o = Ok l → l = {| in_features := i; out_features := o |}.
Proof.
  unfold nn_Linear, mbind, result_mbind, mret, result_ret. intros Hl.
  repeat (apply result_bind_Ok in Hl as ([] & _ & Hl)). by injection Hl as <-.
Qed.

Lemma AudioNet_init_inv (hparams : ModelCfg float) (net : AudioNet) :
  AudioNet_init hparams = Ok net →
  net = {| conv1 := {| in_channels := 1; out_channels := base_filters hparams;
                       kernel_size := 11; padding := 5 |};
           bn1 := {| num_features := base_filters hparams |};
           conv2 := {| in_channels := base_filters hparams;
                       out_channels := base_filters hparams;
                       kernel_size := 3; padding := 1 |};
           bn2 := {| num_features := base_filters hparams |};
           pool1 := {| pool_kernel := 2 |};
           conv3 := {| in_channels := base_filters hparams;
                       out_channels := base_filters hparams * 2;
                       kernel_size := 3; padding := 1 |};
           bn3 := {| num_features := base_filters hparams * 2 |};
           conv4 := {| in_channels := base_filters hparams * 2;
                       out_channels := base_filters hparams * 4;
                       kernel_size := 3; padding := 1 |};
           bn4 := {| num_features := base_filters hparams * 4 |};
           pool2 := {| pool_kernel := 2 |};
           fc1 := {| in_features := base_filters hparams * 4;
                     out_features := num_classes hparams |} |}.
Proof.
  unfold AudioNet_init, nn_MaxPool2d, mbind, result_mbind, mret, result_ret.
  intros Hinit.
  apply result_bind_Ok in Hinit as (c1 & ->%nn_Conv2d_Ok & Hinit).
  apply result_bind_Ok in Hinit as (b1 & ->%nn_BatchNorm2d_Ok & Hinit).
  apply result_bind_Ok in Hinit as (c2 & ->%nn_Conv2d_Ok & Hinit).
  apply result_bind_Ok in Hinit as (b2 & ->%nn_BatchNorm2d_Ok & Hinit).
  apply result_bind_Ok in Hinit as (p1 & [= <-] & Hinit).
  apply result_bind_Ok in Hinit as (c3 & ->%nn_Conv2d_Ok & Hinit).
  apply result_bind_Ok in Hinit as (b3 & ->%nn_BatchNorm2d_Ok & Hinit).
  apply result_bind_Ok in Hinit as (c4 & ->%nn_Conv2d_Ok & Hinit).
  apply result_bind_Ok in Hinit as (b4 & ->%nn_BatchNorm2d_Ok & Hinit).
  apply result_bind_Ok in Hinit as (p2 & [= <-] & Hinit).
  apply result_bind_Ok in Hinit as (f1 & ->%nn_Linear_Ok & Hinit).
  by injection Hinit as <-.
Qed.

Lemma AudioNet_init_fits (hparams : ModelCfg float) :
  Forall (λ t, tensor_fits t.1 t.2)
    (AudioNet_parameters (base_filters hparams) (num_classes hparams)) →
  is_Ok (AudioNet_init hparams) = true.
Proof.
  unfold AudioNet_parameters. intros Hfits.
  repeat (let Hfit := fresh "Hfit" in
          apply Forall_cons_1 in Hfits as [Hfit Hfits];
          cbn [fst snd] in Hfit; apply torch_empty_fits in Hfit).
  unfold AudioNet_init, nn_Conv2d, nn_BatchNorm2d, nn_MaxPool2d, nn_Linear.
  unfold mbind, result_mbind, mret, result_ret.
  repeat match goal with
         | Hfit : torch_empty _ _ = Ok tt |- _ => rewrite !Hfit; clear Hfit
         end.
  done.
Qed.

Lemma conv_out_same (n : Z) : conv_out 11 5 n = n ∧ conv_out 3 1 n = n.
Proof. unfold conv_out. lia. Qed.

Lemma run_shape_cons (o : op) (ops : list op) (x x' : shape) :
  op_shape o x = Ok x' → run_shape (o :: ops) x = run_shape ops x'.
Proof. intros Ho. cbn [run_shape]. by rewrite Ho. Qed.

(** One operation of a forward pass whose side conditions are arithmetic. *)
Ltac shape_step :=
  erewrite run_shape_cons;
  [| cbn [op_shape conv1 bn1 conv2 bn2 pool1 conv3 bn3 conv4 bn4 pool2 fc1
          in_channels out_channels kernel_size padding num_features pool_kernel
          in_features out_features];
     rewrite ?decide_True by (unfold conv_out; Z.div_mod_to_equations; lia);
     reflexivity ].

(** C4, as the code has it.  Whenever the construction of the network
    returns a network, its last linear layer takes [4 * base_filters]
    inputs; and for a positive [base_filters] the construction does return
    a network when every parameter tensor of the network can be created
    (no negative class count, byte sizes within the storage limit, blocks
    granted by the allocator).  It does not for every positive width. *)
Theorem AudioNet_init_linear_width (hparams : ModelCfg float) :
  (∀ net, AudioNet_init hparams = Ok net →
          in_features (fc1 net) = 4 * base_filters hparams)
  ∧ (0 < base_filters hparams →
     Forall (λ t, tensor_fits t.1 t.2)
       (AudioNet_parameters (base_filters hparams) (num_classes hparams)) →
     ∃ net, AudioNet_init hparams = Ok net).
Proof.
  split.
  - intros net Hinit. rewrite (AudioNet_init_inv _ _ Hinit).
    cbn [fc1 in_features]. lia.
  - intros _ Hfits. apply AudioNet_init_fits in Hfits.
    destruct (AudioNet_init hparams) as [net|e]; [by exists net|done].
Qed.

(** C3.  On an input of shape (N, 1, H, W) with H and W at least 4, the
    forward pass of a constructed network yields the shape
    (N, num_classes); its last operation is the linear layer [fc1], and no
    softmax is among its operations. *)
Theorem AudioNet_forward_shape (hparams : ModelCfg float) (net : AudioNet)
    (N H W : Z) :
  AudioNet_init hparams = Ok net →
  0 ≤ N → 4 ≤ H → 4 ≤ W →
  run_shape (forward net) [N; 1; H; W] = Ok [N; num_classes hparams]
  ∧ list.last (forward net) = Some (OpLinear (fc1 net))
  ∧ ∀ dim, OpSoftmax dim ∉ forward net.
Proof.
  intros Hinit HN HH HW.
  rewrite (AudioNet_init_inv _ _ Hinit). clear Hinit net.
  split; [|split].
  - unfold forward. repeat shape_step. done.
  - done.
  - intros dim Hin. unfold forward in Hin.
    repeat (apply elem_of_cons in Hin as [Hin|Hin]; [discriminate Hin|]).
    by apply elem_of_nil in Hin.
Qed.

(** Below 4 the second pooling has nothing left to pool. *)
Lemma AudioNet_forward_too_small (hparams : ModelCfg float) (net : AudioNet)
    (N H W : Z) :
  AudioNet_init hparams = Ok net →
  1 ≤ H < 4 → 4 ≤ W →
  is_Ok (run_shape (forward net) [N; 1; H; W]) = false.
Proof.
  intros Hinit HH HW.
  rewrite (AudioNet_init_inv _ _ Hinit). clear Hinit net.
  assert (H = 1 ∨ H = 2 ∨ H = 3) as [->|[->| ->]] by lia;
    unfold forward; repeat shape_step;
    cbn [run_shape op_shape pool1 pool2 pool_kernel];
    rewrite decide_False by (unfold conv_out; Z.div_mod_to_equations; lia);
    done.
Qed.

(** ** The validation step *)

Lemma count_correct_same (y : list Z) : count_correct y y = length y.
Proof.
  unfold count_correct. induction y as [|t y IH]; [done|].
  cbn [zip zip_with]. rewrite filter_cons. cbn [fst snd].
  rewrite decide_True by done. cbn [length]. by rewrite IH.
Qed.

Lemma count_correct_none (pred target : list Z) :
  Forall2 (λ p t, p ≠ t) pred target → count_correct pred target = 0%nat.
Proof.
  unfold count_correct. induction 1 as [|p t pred target Hpt _ IH]; [done|].
  cbn [zip zip_with]. rewrite filter_cons. cbn [fst snd].
  by rewrite decide_False.
Qed.

Lemma Qc_of_nat_nonzero (n : nat) : n ≠ 0%nat → Qc_of_nat n ≠ 0%Qc.
Proof.
  intros Hn Heq. unfold Qc_of_nat in Heq.
  apply Q2Qc_eq_iff in Heq. unfold Qeq, inject_Z in Heq. cbn in Heq. lia.
Qed.

Lemma functional_accuracy_all_correct (y : list Z) :
  y ≠ [] → functional_accuracy y y = Ok 1%Qc.
Proof.
  intros Hy. unfold functional_accuracy.
  rewrite decide_True by done. rewrite decide_False by done.
  rewrite count_correct_same. f_equal. unfold Qcdiv.
  apply Qcmult_inv_r, Qc_of_nat_nonzero. by destruct y.
Qed.

Lemma functional_accuracy_all_wrong (pred target : list Z) :
  Forall2 (λ p t, p ≠ t) pred target → target ≠ [] →
  functional_accuracy pred target = Ok 0%Qc.
Proof.
  intros Hne Hy. unfold functional_accuracy.
  rewrite decide_True by (by eapply Forall2_length). rewrite decide_False by done.
  rewrite count_correct_none by done. f_equal. unfold Qcdiv.
  apply Qcmult_0_l.
Qed.

(** C5.  The validation step takes the arg-max class of each row of
    logits, computes the accuracy of these classes against the labels,
    records it under the name val_acc with epoch aggregation and returns
    it; on a batch (not empty) whose predicted classes all equal the labels
    the accuracy is 1, and on one whose predicted classes all differ from
    the labels it is 0. *)
Theorem validation_step_accuracy (self : AudioNet) (x : tensor) (y : list Z)
    (batch_idx : Z) (w : world) (preds : list Z) :
  torch_argmax_dim1 (net_call self x) = Ok preds →
  length preds = length y →
  y ≠ [] →
  (∃ acc, functional_accuracy preds y = Ok acc
          ∧ validation_step self (x, y) batch_idx w
            = (Ok acc, record_event (EvLog "val_acc" acc None true true) w))
  ∧ (preds = y →
     validation_step self (x, y) batch_idx w
     = (Ok 1%Qc, record_event (EvLog "val_acc" 1%Qc None true true) w))
  ∧ (Forall2 (λ p t, p ≠ t) preds y →
     validation_step self (x, y) batch_idx w
     = (Ok 0%Qc, record_event (EvLog "val_acc" 0%Qc None true true) w)).
Proof.
  intros Hpreds Hlen Hy.
  assert (∀ acc, functional_accuracy preds y = Ok acc →
            validation_step self (x, y) batch_idx w
            = (Ok acc, record_event (EvLog "val_acc" acc None true true) w)) as Hstep.
  { intros acc Hacc. unfold validation_step, self_log.
    rewrite Hpreds. io_unfold. by rewrite Hacc. }
  split; [|split].
  - unfold functional_accuracy in *.
    rewrite decide_True in * by done. rewrite decide_False in * by done.
    eexists. split; [done|]. by apply Hstep.
  - intros ->. by apply Hstep, functional_accuracy_all_correct.
  - intros Hne. by apply Hstep, functional_accuracy_all_wrong.
Qed.

(** ** The entry point *)

Lemma events_since_app (w w' : world) (evs : list event) :
  trace w' = trace w ++ evs → events_since w w' = evs.
Proof. intros Heq. unfold events_since. by rewrite Heq, drop_app_length. Qed.

(** *** What the fit adds *)

Lemma ESC50Dataset_getitem_trace (self : ESC50Dataset) (index : Z) (w : world) :
  ∃ evs, trace (ESC50Dataset_getitem self index w).2 = trace w ++ evs
         ∧ Forall fit_kind evs.
Proof.
  unfold ESC50Dataset_getitem, torchaudio_load.
  destruct (iloc (ds_csv self) index) as [row|]; cbn [from_option]; io_unfold.
  - exists [EvAudioLoad (ds_path self </> "audio" </> filename row)].
    split; [|apply Forall_singleton; by left].
    by destruct (fs_audio w _) as [[wav sr]|].
  - exists []. by rewrite app_nil_r.
Qed.

Lemma run_fit_step_trace (tl vl : DataLoader) (s : fit_step) (w : world) :
  ∃ evs, trace (run_fit_step tl vl s w).2 = trace w ++ evs ∧ Forall fit_kind evs.
Proof.
  destruct s as [index|index|name value on_step on_epoch prog_bar|e];
    cbn [run_fit_step].
  - destruct (ESC50Dataset_getitem_trace (dl_dataset tl) index w) as (evs & He & Hk).
    exists evs. split; [|done]. io_unfold.
    by destruct (ESC50Dataset_getitem _ _ w) as [[item|e] w'].
  - destruct (ESC50Dataset_getitem_trace (dl_dataset vl) index w) as (evs & He & Hk).
    exists evs. split; [|done]. io_unfold.
    by destruct (ESC50Dataset_getitem _ _ w) as [[item|e] w'].
  - exists [EvLog name value on_step on_epoch prog_bar].
    split; [done|]. apply Forall_singleton. by right.
  - exists []. by rewrite app_nil_r.
Qed.

Lemma run_fit_trace (tl vl : DataLoader) (plan : list fit_step) (w : world) :
  ∃ evs, trace (run_fit tl vl plan w).2 = trace w ++ evs ∧ Forall fit_kind evs.
Proof.
  revert w. induction plan as [|s plan IH]; intros w; cbn [run_fit].
  - exists []. by rewrite app_nil_r.
  - destruct (run_fit_step_trace tl vl s w) as (evs1 & He1 & Hk1). io_unfold.
    destruct (run_fit_step tl vl s w) as [[[]|e] w1]; cbn [snd] in *.
    + destruct (IH w1) as (evs2 & He2 & Hk2).
      exists (evs1 ++ evs2). split; [|by apply Forall_app].
      by rewrite He2, He1, app_assoc.
    + by exists evs1.
Qed.

Lemma loaders_of_fit (evs : list event) : Forall fit_kind evs → loaders_of evs = [].
Proof.
  unfold loaders_of. induction 1 as [|e evs He _ IH]; [done|].
  cbn [omap list_omap]. rewrite IH.
  by destruct e, He as [He|He]; try discriminate He.
Qed.

Lemma loaders_of_app (evs1 evs2 : list event) :
  loaders_of (evs1 ++ evs2) = loaders_of evs1 ++ loaders_of evs2.
Proof. apply omap_app. Qed.

(** *** What [train] does by itself *)

Lemma train_run (cfg : DictConfig float) (w : world) :
  ∃ fit_evs,
    events_since w (train cfg w).2 = train_trace cfg w ++ fit_evs
    ∧ Forall fit_kind fit_evs
    ∧ match train_setup cfg w with
      | Ok _ => True
      | Raise e => (train cfg w).1 = Raise e ∧ fit_evs = []
      end.
Proof.
  unfold train_setup, train_trace, train_loaders, train_dataset, swept_model,
    train_root.
  unfold train, logger_info, wandb_init, get_original_cwd, ESC50Dataset_init,
    pd_read_csv, torch_DataLoader, pl_seed_everything, pl_WandbLogger,
    new_AudioNet, pl_Trainer, trainer_fit.
  io_unfold.
  cbn [set_lr set_base_filters set_sample_rate data model seed trainer data_path
       batch_size train_folds val_folds test_folds default from_option id
       base_filters num_classes optim lr].
  unfold default_sample_rate.
  destruct (fs_manifest w _) as [rows|] eqn:Hm; io_unfold;
    repeat (rewrite Hm; io_unfold).
  - destruct (decide (0 < ESC50Dataset_len _)) as [Hlen|Hlen]; io_unfold.
    + destruct (decide (0 < batch_size (data cfg))) as [Hbs|Hbs]; io_unfold.
      * rewrite decide_True by done.
        destruct (AudioNet_init _) as [net|e] eqn:Hnet; io_unfold.
        -- match goal with
           | |- context [run_fit ?tl ?vl ?plan ?w1] =>
               destruct (run_fit_trace tl vl plan w1) as (evs & He & Hk)
           end.
           exists evs. split; [|done]. apply events_since_app. rewrite He.
           cbn [trace record_event]. by rewrite <- !app_assoc.
        -- exists []. split; [|done]. apply events_since_app.
           cbn [snd trace record_event]. by rewrite <- !app_assoc.
      * rewrite decide_False by tauto.
        exists []. split; [|done]. apply events_since_app.
        cbn [snd trace record_event]. by rewrite <- !app_assoc.
    + rewrite decide_False by tauto.
      exists []. split; [|done]. apply events_since_app.
      cbn [snd trace record_event]. by rewrite <- !app_assoc.
  - exists []. split; [|done]. apply events_since_app.
    cbn [snd trace record_event]. by rewrite <- !app_assoc.
Qed.

Lemma train_dataset_nonempty (cfg : DictConfig float) (w : world)
    (rows : list csv_row) (folds : list Z) :
  0 < ESC50Dataset_len (train_dataset cfg w rows folds)
  ↔ retained_rows folds rows ≠ [].
Proof.
  unfold ESC50Dataset_len, train_dataset. cbn [ds_csv].
  rewrite <- (length_fmap snd), select_frame_rows.
  destruct (retained_rows folds rows); cbn [length]; split; (done || lia).
Qed.

Lemma train_trace_loaders (cfg : DictConfig float) (w : world) :
  loaders_of (train_trace cfg w)
  = match fs_manifest w (train_root cfg w </> "meta/esc50.csv") with
    | Some rows =>
        if decide (0 < ESC50Dataset_len
                         (train_dataset cfg w rows (train_folds (data cfg)))
                   ∧ 0 < batch_size (data cfg))
        then train_loaders cfg w rows else []
    | None => []
    end.
Proof.
  unfold loaders_of, train_trace, train_loaders.
  destruct (fs_manifest w _) as [rows|]; [|done].
  case_decide; [|done].
  by destruct (AudioNet_init _).
Qed.




(** C10.  Every loader built by [train] wraps a dataset whose resampler and
    mel-spectrogram were built for the default rate 8000; the loaders built
    are the same whatever [data.sample_rate] holds and whatever the sweep
    injects; and when the manifest can be read, the train folds retain a
    row and the batch size is positive, these loaders are the three for the
    train, validation and test folds. *)
Theorem train_datasets_default_sample_rate (cfg : DictConfig float) (w : world) :
  (∀ dl, dl ∈ loaders_of (events_since w (train cfg w).2) →
     ds_resample (dl_dataset dl)
     = {| orig_freq := 44100; new_freq := default_sample_rate |}
     ∧ ds_melspec (dl_dataset dl) = {| sample_rate := default_sample_rate |})
  ∧ (∀ (sr : Z) (w' : world),
       fs_manifest w' (train_root cfg w </> "meta/esc50.csv")
       = fs_manifest w (train_root cfg w </> "meta/esc50.csv") →
       original_cwd w' = original_cwd w →
       loaders_of (events_since w' (train (set_sample_rate sr cfg) w').2)
       = loaders_of (events_since w (train cfg w).2))
  ∧ (∀ rows,
       fs_manifest w (train_root cfg w </> "meta/esc50.csv") = Some rows →
       retained_rows (train_folds (data cfg)) rows ≠ [] →
       0 < batch_size (data cfg) →
       loaders_of (events_since w (train cfg w).2) = train_loaders cfg w rows).
Proof.
  assert (∀ c v, loaders_of (events_since v (train c v).2)
                 = loaders_of (train_trace c v)) as Hloaders.
  { intros c v. destruct (train_run c v) as (fit & -> & Hfit & _).
    by rewrite loaders_of_app, (loaders_of_fit fit), app_nil_r. }
  rewrite Hloaders, train_trace_loaders.
  split; [|split].
  - intros dl Hdl.
    destruct (fs_manifest w _) as [rows|]; [|by apply elem_of_nil in Hdl].
    case_decide; [|by apply elem_of_nil in Hdl].
    unfold train_loaders in Hdl.
    repeat (apply elem_of_cons in Hdl as [->|Hdl]; [done|]).
    by apply elem_of_nil in Hdl.
  - intros sr w' Hfs Hcwd.
    rewrite Hloaders, train_trace_loaders.
    unfold train_loaders, train_dataset, train_root in *.
    cbn [set_sample_rate data data_path batch_size train_folds val_folds test_folds].
    by rewrite Hcwd, Hfs.
  - intros rows -> Hrows Hbs.
    rewrite decide_True; [done|]. split; [|done]. by apply train_dataset_nonempty.
Qed.

End Properties.

(** * The properties on the small instance *)

Example toy_dataset_built :
  ESC50Dataset_init (Some toy_root) (Some 16000) (Some [1; 2]) toy_world
  = (Ok toy_dataset,
     record_event (EvReadCsv "/home/user/reprodl/data/ESC-50/meta/esc50.csv") toy_world).
Proof. reflexivity. Qed.

Example toy_net_built : AudioNet_init (model toy_cfg) = Ok toy_net.
Proof. reflexivity. Qed.

Lemma ESC50Dataset_len_counts_fold_rows_witness :
  ∃ ds w',
    ESC50Dataset_init (Some toy_root) (Some 16000) (Some [1; 2]) toy_world = (Ok ds, w')
    ∧ ESC50Dataset_len ds = Z.of_nat (count_fold_rows [1; 2] toy_rows)
    ∧ (Forall (λ r, fold r ∉ [1; 2]) toy_rows → ESC50Dataset_len ds = 0).
Proof.
  apply (ESC50Dataset_len_counts_fold_rows
           (Some toy_root) (Some 16000) (Some [1; 2]) toy_world toy_rows).
  reflexivity.
Defined.

(** A fold that no row carries: the dataset is empty. *)
Example ESC50Dataset_len_absent_fold :
  ESC50Dataset_len
    {| ds_path := toy_root;
       ds_csv := select_isin_fold [7] (frame_of_rows toy_rows);
       ds_resample := {| orig_freq := 44100; new_freq := 8000 |};
       ds_melspec := {| sample_rate := 8000 |};
       ds_db := {| top_db := 80 |} |} = 0.
Proof. reflexivity. Qed.

Lemma ESC50Dataset_getitem_pipeline_witness :
  ESC50Dataset_getitem toy_dataset 0 toy_world
  = (Ok ([80; 16000; 44100; 16000; 3; 1; 4], 0),
     record_event
       (EvAudioLoad "/home/user/reprodl/data/ESC-50/audio/1-100032-A-0.wav")
       toy_world).
Proof.
  apply (ESC50Dataset_getitem_pipeline
           (Some toy_root) (Some 16000) (Some [1; 2]) toy_world
           (record_event
              (EvReadCsv "/home/user/reprodl/data/ESC-50/meta/esc50.csv") toy_world)
           toy_world toy_rows toy_dataset 0
           (CsvRow "1-100032-A-0.wav" 1 0) [3; 1; 4] 22050).
  - reflexivity.
  - reflexivity.
  - vm_compute. split; [discriminate | reflexivity].
  - reflexivity.
  - reflexivity.
Defined.

Lemma AudioNet_forward_shape_witness :
  run_shape (forward toy_net) [5; 1; 200; 100] = Ok [5; 50]
  ∧ list.last (forward toy_net) = Some (OpLinear (fc1 toy_net))
  ∧ ∀ dim, OpSoftmax dim ∉ forward toy_net.
Proof.
  apply (AudioNet_forward_shape (FW := toy) (model toy_cfg) toy_net 5 200 100).
  - reflexivity.
  - lia.
  - lia.
  - lia.
Defined.

(** A positive width for which no network is built: the weights of the
    first convolution would take more bytes than a storage can have. *)
Lemma AudioNet_init_huge_width :
  0 < base_filters toy_huge_hparams
  ∧ AudioNet_init toy_huge_hparams
    = Raise (RuntimeError "Storage size calculation overflowed").
Proof. split; reflexivity. Qed.

Lemma AudioNet_init_linear_width_witness :
  ∃ net, AudioNet_init (model toy_cfg) = Ok net ∧ in_features (fc1 net) = 4 * 32.
Proof.
  destruct (AudioNet_init_linear_width (FW := toy) (model toy_cfg)) as [Hwidth Hbuilt].
  destruct Hbuilt as [net Hnet].
  - reflexivity.
  - unfold AudioNet_parameters, tensor_fits.
    repeat (apply Forall_cons_2 || apply Forall_nil_2);
      (split; [repeat constructor; discriminate | split; [discriminate | reflexivity]]).
  - exists net. split; [exact Hnet | exact (Hwidth net Hnet)].
Defined.

Lemma validation_step_accuracy_witness :
  validation_step (FW := toy) toy_net ([[1; 5; 2]; [7; 0; 3]], [1; 0]) 0 toy_world
  = (Ok 1%Qc, record_event (EvLog "val_acc" 1%Qc None true true) toy_world)
  ∧ validation_step (FW := toy) toy_net ([[1; 5; 2]; [7; 0; 3]], [2; 1]) 0 toy_world
    = (Ok 0%Qc, record_event (EvLog "val_acc" 0%Qc None true true) toy_world).
Proof.
  split.
  - apply (validation_step_accuracy (FW := toy) toy_net [[1; 5; 2]; [7; 0; 3]] [1; 0] 0
             toy_world [1; 0]); [reflexivity | reflexivity | discriminate | reflexivity].
  - apply (validation_step_accuracy (FW := toy) toy_net [[1; 5; 2]; [7; 0; 3]] [2; 1] 0
             toy_world [1; 0]); [reflexivity | reflexivity | discriminate |].
    repeat constructor; discriminate.
Defined.

Lemma ESC50Dataset_getitem_load_error_witness :
  ESC50Dataset_getitem toy_dataset 1 toy_world
  = (Raise (LoadError "/home/user/reprodl/data/ESC-50/audio/1-100038-A-14.wav"),
     record_event
       (EvAudioLoad "/home/user/reprodl/data/ESC-50/audio/1-100038-A-14.wav")
       toy_world).
Proof.
  apply (ESC50Dataset_getitem_load_error toy_dataset 1 toy_world 1%nat
           (CsvRow "1-100038-A-14.wav" 1 14)).
  - vm_compute. split; [discriminate | reflexivity].
  - reflexivity.
  - reflexivity.
Defined.

Lemma ESC50Dataset_resample_from_44100_witness :
  orig_freq (ds_resample toy_dataset) = 44100
  ∧ (ESC50Dataset_getitem toy_dataset 0 toy_world).1
    = (ESC50Dataset_getitem toy_dataset 0 toy_world_48k).1
  ∧ (ESC50Dataset_getitem toy_dataset 0 toy_world).1
    = Ok ([80; 16000; 44100; 16000; 3; 1; 4], 0).
Proof.
  apply (ESC50Dataset_resample_from_44100
           (Some toy_root) (Some 16000) (Some [1; 2]) toy_world
           (record_event
              (EvReadCsv "/home/user/reprodl/data/ESC-50/meta/esc50.csv") toy_world)
           toy_world toy_world_48k toy_dataset 0
           (CsvRow "1-100032-A-0.wav" 1 0) [3; 1; 4] 22050 48000).
  - reflexivity.
  - reflexivity.
  - reflexivity.
  - reflexivity.
Defined.


(** On the toy world the fit ends in the error of the clip that is
    missing. *)
Example toy_train_fails_in_fit :
  (train toy_cfg toy_world).1
  = Raise (LoadError "/home/user/reprodl/data/ESC-50/audio/1-100038-A-14.wav").
Proof. reflexivity. Qed.

(** With train folds that retain no row, the shuffling loader is refused
    after the three reads, and nothing else happens. *)
Example toy_train_without_train_rows :
  (train toy_cfg_no_train_rows toy_world).1
  = Raise (ValueError "num_samples should be a positive integer value")
  ∧ kind_of <$> events_since toy_world (train toy_cfg_no_train_rows toy_world).2
    = [KLoggerInfo; KWandbInit; KReadCsv; KReadCsv; KReadCsv].
Proof. split; reflexivity. Qed.


(** The toy configuration asks for 22050 and the toy sweep injects 16000:
    the three datasets are built for 8000 all the same. *)
Lemma train_datasets_default_sample_rate_witness :
  loaders_of (events_since toy_world (train toy_cfg toy_world).2)
  = train_loaders toy_cfg toy_world toy_rows
  ∧ (λ dl, new_freq (ds_resample (dl_dataset dl)))
      <$> train_loaders toy_cfg toy_world toy_rows = [8000; 8000; 8000].
Proof.
  split.
  - apply (train_datasets_default_sample_rate (FW := toy) toy_cfg toy_world).
    + reflexivity.
    + discriminate.
    + reflexivity.
  - reflexivity.
Defined.

(** * Further properties of the dataset *)

Section DatasetProperties.

Context `{FW : Framework} `{MA : Machine}.

Ltac io_run :=
  unfold ask, lift, emit, mbind, IO_bind, io_bind, mret, IO_ret, io_ret;
  cbn beta iota delta [fs_manifest fs_audio original_cwd sweep fit_plan trace
                       record_event].

Lemma frame_of_rows_elem (rows : list csv_row) (l : nat) (r : csv_row) :
  (l, r) ∈ frame_of_rows rows ↔ rows !! l = Some r.
Proof.
  unfold frame_of_rows. rewrite elem_of_lookup_imap. split.
  - by intros (i & y & [= -> ->] & Hi).
  - intros Hl. by exists l, r.
Qed.

(** The frame of a dataset holds rows of the manifest only, each under the
    position it has in the manifest, and exactly those whose fold was asked
    for; they come in the order of the manifest, so the dataset is never
    longer than the manifest. *)
Theorem ESC50Dataset_init_rows (path : option Path) (sample_rate : option Z)
    (folds : option (list Z)) (w w' : world) (rows : list csv_row)
    (ds : ESC50Dataset) :
  fs_manifest w (default default_path path </> "meta/esc50.csv") = Some rows →
  ESC50Dataset_init path sample_rate folds w = (Ok ds, w') →
  (∀ l r, (l, r) ∈ ds_csv ds
          ↔ rows !! l = Some r ∧ fold r ∈ default default_folds folds)
  ∧ (ds_csv ds).*2 `sublist_of` rows
  ∧ 0 ≤ ESC50Dataset_len ds ≤ Z.of_nat (length rows).
Proof.
  intros Hrows Hinit.
  rewrite (ESC50Dataset_init_run _ _ _ _ _ Hrows) in Hinit.
  injection Hinit as <- _. unfold ESC50Dataset_len. cbn [ds_csv].
  split; [|split].
  - intros l r. unfold select_isin_fold.
    rewrite list_elem_of_filter, frame_of_rows_elem. cbn [snd]. tauto.
  - rewrite select_frame_rows. apply sublist_filter.
  - rewrite <- (length_fmap snd), select_frame_rows.
    pose proof (length_filter (λ r, fold r ∈ default default_folds folds) rows).
    unfold retained_rows. lia.
Qed.

(** Without a manifest at [path/meta/esc50.csv] no dataset is built: the
    construction raises the error of the read, which was tried once. *)
Theorem ESC50Dataset_init_missing_manifest (path : option Path)
    (sample_rate : option Z) (folds : option (list Z)) (w : world) :
  fs_manifest w (default default_path path </> "meta/esc50.csv") = None →
  ESC50Dataset_init path sample_rate folds w
  = (Raise (FileNotFoundError (default default_path path </> "meta/esc50.csv")),
     record_event (EvReadCsv (default default_path path </> "meta/esc50.csv")) w).
Proof.
  intros Hnone. unfold ESC50Dataset_init, pd_read_csv. io_run.
  by rewrite Hnone.
Qed.

Lemma count_fold_rows_app (f1 f2 : list Z) (rows : list csv_row) :
  (∀ x, x ∈ f1 → x ∉ f2) →
  count_fold_rows (f1 ++ f2) rows
  = (count_fold_rows f1 rows + count_fold_rows f2 rows)%nat.
Proof.
  intros Hdisj. induction rows as [|r rows IH]; [done|].
  cbn [count_fold_rows]. rewrite IH.
  destruct (decide (fold r ∈ f1)) as [H1|H1], (decide (fold r ∈ f2)) as [H2|H2].
  - by destruct (Hdisj _ H1).
  - rewrite (bool_decide_eq_true_2 (fold r ∈ f1 ++ f2)) by (rewrite elem_of_app; tauto).
    rewrite (bool_decide_eq_true_2 _ H1), (bool_decide_eq_false_2 _ H2). lia.
  - rewrite (bool_decide_eq_true_2 (fold r ∈ f1 ++ f2)) by (rewrite elem_of_app; tauto).
    rewrite (bool_decide_eq_false_2 _ H1), (bool_decide_eq_true_2 _ H2). lia.
  - rewrite (bool_decide_eq_false_2 (fold r ∈ f1 ++ f2)) by (rewrite elem_of_app; tauto).
    rewrite (bool_decide_eq_false_2 _ H1), (bool_decide_eq_false_2 _ H2). lia.
Qed.

Lemma ESC50Dataset_init_len (path : option Path) (sample_rate : option Z)
    (folds : option (list Z)) (w w' : world) (rows : list csv_row)
    (ds : ESC50Dataset) :
  fs_manifest w (default default_path path </> "meta/esc50.csv") = Some rows →
  ESC50Dataset_init path sample_rate folds w = (Ok ds, w') →
  ESC50Dataset_len ds = Z.of_nat (count_fold_rows (default default_folds folds) rows).
Proof.
  intros Hrows Hinit.
  rewrite (ESC50Dataset_init_run _ _ _ _ _ Hrows) in Hinit.
  injection Hinit as <- _. unfold ESC50Dataset_len. cbn [ds_csv].
  by rewrite <- retained_rows_length, <- select_frame_rows, length_fmap.
Qed.

(** Fold lists that share no fold split the manifest: the dataset over
    both lists together is as long as the two datasets over each list. *)
Theorem ESC50Dataset_len_disjoint_folds (path : option Path)
    (sample_rate : option Z) (f1 f2 : list Z) (w w1 w2 w12 : world)
    (rows : list csv_row) (ds1 ds2 ds12 : ESC50Dataset) :
  fs_manifest w (default default_path path </> "meta/esc50.csv") = Some rows →
  (∀ x, x ∈ f1 → x ∉ f2) →
  ESC50Dataset_init path sample_rate (Some f1) w = (Ok ds1, w1) →
  ESC50Dataset_init path sample_rate (Some f2) w = (Ok ds2, w2) →
  ESC50Dataset_init path sample_rate (Some (f1 ++ f2)) w = (Ok ds12, w12) →
  ESC50Dataset_len ds12 = ESC50Dataset_len ds1 + ESC50Dataset_len ds2.
Proof.
  intros Hrows Hdisj H1 H2 H12.
  rewrite (ESC50Dataset_init_len _ _ _ _ _ _ _ Hrows H1).
  rewrite (ESC50Dataset_init_len _ _ _ _ _ _ _ Hrows H2).
  rewrite (ESC50Dataset_init_len _ _ _ _ _ _ _ Hrows H12).
  cbn [default from_option id]. rewrite count_fold_rows_app by done. lia.
Qed.

(** The folds are used as a set: two fold lists with the same members, in
    any order and repeated any number of times, give the same dataset (or
    the same error). *)
Theorem ESC50Dataset_init_folds_as_set (path : option Path)
    (sample_rate : option Z) (f1 f2 : list Z) (w : world) :
  (∀ x, x ∈ f1 ↔ x ∈ f2) →
  ESC50Dataset_init path sample_rate (Some f1) w
  = ESC50Dataset_init path sample_rate (Some f2) w.
Proof.
  intros Hsame. unfold ESC50Dataset_init, pd_read_csv. io_run.
  destruct (fs_manifest w _) as [rows|]; [|done].
  cbn [default from_option id]. unfold select_isin_fold.
  by rewrite (list_filter_iff (λ lr : nat * csv_row, fold lr.2 ∈ f1)
                (λ lr, fold lr.2 ∈ f2)) by (intros lr; apply Hsame).
Qed.

Lemma iloc_negative (df : DataFrame) (k : Z) :
  1 ≤ k ≤ Z.of_nat (length df) →
  iloc df (- k) = iloc df (Z.of_nat (length df) - k).
Proof.
  intros Hk. unfold iloc.
  rewrite (decide_False (P := 0 ≤ - k < _)) by lia.
  rewrite (decide_True (P := - _ ≤ - k < 0)) by lia.
  rewrite (decide_True (P := 0 ≤ _ - k < _)) by lia.
  do 3 f_equal. lia.
Qed.

(** A negative index counts from the end, as in Python: for
    1 <= k <= length(), [get(-k)] is [get(length() - k)]. *)
Theorem ESC50Dataset_getitem_negative (self : ESC50Dataset) (k : Z) (w : world) :
  1 ≤ k ≤ ESC50Dataset_len self →
  ESC50Dataset_getitem self (- k) w
  = ESC50Dataset_getitem self (ESC50Dataset_len self - k) w.
Proof.
  intros Hk. unfold ESC50Dataset_getitem, ESC50Dataset_len in *.
  rewrite iloc_negative by done.
  destruct (iloc _ _) as [row|] eqn:Hrow; [done|].
  unfold iloc in Hrow. rewrite decide_True in Hrow by lia.
  destruct (ds_csv self !! _) eqn:Hl; [done|].
  apply lookup_ge_None in Hl. lia.
Qed.

(** An index outside [-length(), length()) raises IndexError before any
    file is touched: the world is left as it was.  On an empty dataset this
    is every index. *)
Theorem ESC50Dataset_getitem_out_of_range (self : ESC50Dataset) (index : Z)
    (w : world) :
  index < - ESC50Dataset_len self ∨ ESC50Dataset_len self ≤ index →
  ESC50Dataset_getitem self index w = (Raise (IndexError index), w).
Proof.
  intros Hout. unfold ESC50Dataset_getitem, ESC50Dataset_len in *.
  unfold iloc. rewrite !decide_False by lia. done.
Qed.

End DatasetProperties.

(** * Further properties of the network and of the validation step *)

Section NetworkProperties.

Context `{FW : Framework} `{MA : Machine}.

Ltac layer_fields :=
  cbn [conv1 bn1 conv2 bn2 pool1 conv3 bn3 conv4 bn4 pool2 fc1
       in_channels out_channels kernel_size padding num_features pool_kernel
       in_features out_features].

Ltac shape_arith := unfold conv_out; Z.div_mod_to_equations; lia.

Ltac shape_pass :=
  erewrite run_shape_cons;
  [| cbn [op_shape]; layer_fields;
     rewrite ?decide_True by shape_arith; reflexivity ].

Ltac shape_stop :=
  cbn [run_shape op_shape]; layer_fields;
  rewrite decide_False by shape_arith; done.

(** The layers built by [__init__] fit each other for every width: each
    batch norm and each following convolution takes the channels that the
    convolution before it puts out, the linear layer takes the channels of
    the last convolution and puts out one value per class, and every
    convolution leaves the height and the width as they are. *)
Theorem AudioNet_init_wiring (hparams : ModelCfg float) (net : AudioNet) :
  AudioNet_init hparams = Ok net →
  in_channels (conv1 net) = 1
  ∧ num_features (bn1 net) = out_channels (conv1 net)
  ∧ in_channels (conv2 net) = out_channels (conv1 net)
  ∧ num_features (bn2 net) = out_channels (conv2 net)
  ∧ in_channels (conv3 net) = out_channels (conv2 net)
  ∧ num_features (bn3 net) = out_channels (conv3 net)
  ∧ in_channels (conv4 net) = out_channels (conv3 net)
  ∧ num_features (bn4 net) = out_channels (conv4 net)
  ∧ in_features (fc1 net) = out_channels (conv4 net)
  ∧ out_features (fc1 net) = num_classes hparams
  ∧ ∀ c n, c ∈ [conv1 net; conv2 net; conv3 net; conv4 net] →
           conv_out (kernel_size c) (padding c) n = n.
Proof.
  intros Hinit. rewrite (AudioNet_init_inv _ _ Hinit). layer_fields.
  repeat split.
  intros c n Hc.
  repeat (apply elem_of_cons in Hc as [->|Hc]; [layer_fields; unfold conv_out; lia|]).
  by apply elem_of_nil in Hc.
Qed.

(** The forward pass takes a batch of shape (N, C, H, W) exactly when it
    has one channel and is at least 4 high and 4 wide. *)
Theorem AudioNet_forward_accepts (hparams : ModelCfg float) (net : AudioNet)
    (N C H W : Z) :
  AudioNet_init hparams = Ok net →
  is_Ok (run_shape (forward net) [N; C; H; W]) = true
  ↔ C = 1 ∧ 4 ≤ H ∧ 4 ≤ W.
Proof.
  intros Hinit. rewrite (AudioNet_init_inv _ _ Hinit). clear Hinit net.
  unfold forward.
  destruct (decide (C = 1 ∧ 1 ≤ H ∧ 1 ≤ W)) as [(-> & H1 & W1)|Hbad].
  - destruct (decide (2 ≤ H ∧ 2 ≤ W)) as [[H2 W2]|Hbad].
    + destruct (decide (4 ≤ H ∧ 4 ≤ W)) as [[H4 W4]|Hbad].
      * split; [done|intros _]. by repeat shape_pass.
      * split; [|lia]. repeat shape_pass. shape_stop.
    + split; [|lia]. repeat shape_pass. shape_stop.
  - split; [|lia]. shape_stop.
Qed.

(** ** The validation step *)

Lemma validation_step_run (self : AudioNet) (x : tensor) (y : list Z)
    (batch_idx : Z) (w : world) :
  validation_step self (x, y) batch_idx w
  = match torch_argmax_dim1 (net_call self x) with
    | Ok preds =>
        match functional_accuracy preds y with
        | Ok acc => (Ok acc, record_event (EvLog "val_acc" acc None true true) w)
        | Raise e => (Raise e, w)
        end
    | Raise e => (Raise e, w)
    end.
Proof.
  unfold validation_step, self_log, lift, emit, mbind, IO_bind, io_bind, mret,
    IO_ret, io_ret.
  destruct (torch_argmax_dim1 _) as [preds|e]; [|done].
  by destruct (functional_accuracy preds y).
Qed.

Lemma count_correct_le (pred target : list Z) :
  (count_correct pred target ≤ length target)%nat.
Proof.
  unfold count_correct.
  pose proof (length_filter (λ pt : Z * Z, pt.1 = pt.2) (zip pred target)).
  pose proof (length_zip_with pair pred target). lia.
Qed.

Lemma Qc_of_nat_le (a b : nat) : (a ≤ b)%nat → (Qc_of_nat a ≤ Qc_of_nat b)%Qc.
Proof.
  intros Hab. unfold Qcle, Qc_of_nat. cbn [this Q2Qc].
  rewrite !Qred_correct, <- Zle_Qle. lia.
Qed.

Lemma functional_accuracy_range (pred target : list Z) (acc : Qc) :
  functional_accuracy pred target = Ok acc → (0 ≤ acc ≤ 1)%Qc.
Proof.
  unfold functional_accuracy. repeat case_decide; try done. intros [= <-].
  assert (0 < Qc_of_nat (length target))%Qc as Hpos.
  { apply Qclt_nge. intros Hle.
    assert (Qc_of_nat (length target) = Qc_of_nat 0) as Heq.
    { apply Qcle_antisym; [done|]. apply Qc_of_nat_le. lia. }
    apply Q2Qc_eq_iff in Heq. unfold Qeq, inject_Z in Heq. cbn in Heq.
    destruct target; [done|]. cbn in Heq. lia. }
  assert (0 ≤ / Qc_of_nat (length target))%Qc as Hinv
    by apply Qclt_le_weak, Qcinv_pos, Hpos.
  unfold Qcdiv. split.
  - rewrite <- (Qcmult_0_l (/ Qc_of_nat (length target))).
    apply Qcmult_le_mono_nonneg_r; [done|].
    apply (Qc_of_nat_le 0). lia.
  - rewrite <- (Qcmult_inv_r (Qc_of_nat (length target)))
      by (intros Hz; rewrite Hz in Hpos; by apply Qclt_not_eq in Hpos).
    apply Qcmult_le_mono_nonneg_r; [done|].
    apply Qc_of_nat_le, count_correct_le.
Qed.

(** A validation step that returns has logged exactly one value, the one
    it returns, under the name val_acc with epoch aggregation and the
    progress bar set, and that value lies between 0 and 1. *)
Theorem validation_step_logs_accuracy (self : AudioNet) (x : tensor)
    (y : list Z) (batch_idx : Z) (w w' : world) (acc : Qc) :
  validation_step self (x, y) batch_idx w = (Ok acc, w') →
  w' = record_event (EvLog "val_acc" acc None true true) w
  ∧ (0 ≤ acc ≤ 1)%Qc.
Proof.
  rewrite validation_step_run.
  destruct (torch_argmax_dim1 _) as [preds|e]; [|done].
  destruct (functional_accuracy preds y) as [a|e] eqn:Hacc; [|done].
  intros [= <- <-]. split; [done|]. by eapply functional_accuracy_range.
Qed.

(** A validation step that raises (a row of logits without classes,
    labels that do not match the logits in number, an empty batch) has
    logged nothing. *)
Theorem validation_step_error_logs_nothing (self : AudioNet) (x : tensor)
    (y : list Z) (batch_idx : Z) (w w' : world) (e : exn) :
  validation_step self (x, y) batch_idx w = (Raise e, w') → w' = w.
Proof.
  rewrite validation_step_run.
  destruct (torch_argmax_dim1 _) as [preds|e']; [|by intros [= _ <-]].
  destruct (functional_accuracy preds y) as [a|e'']; [done|by intros [= _ <-]].
Qed.

End NetworkProperties.

(** * Further properties of the entry point *)

Section TrainProperties.

Context `{FW : Framework} `{MA : Machine}.

(** Without a manifest under the configured data path, [train] stops at
    the first dataset: it has logged the configuration, started the
    tracking run and tried the manifest once, and it has neither seeded nor
    built a network nor fitted. *)
Theorem train_missing_manifest (cfg : DictConfig float) (w : world) :
  fs_manifest w (original_cwd w </> data_path (data cfg) </> "meta/esc50.csv")
  = None →
  (train cfg w).1
  = Raise (FileNotFoundError
             (original_cwd w </> data_path (data cfg) </> "meta/esc50.csv"))
  ∧ events_since w (train cfg w).2
    = [ EvLoggerInfo cfg;
        EvWandbInit {| wc_base_filters := base_filters (model cfg);
                       wc_lr := lr (optim (model cfg));
                       wc_sample_rate := data_sample_rate (data cfg) |};
        EvReadCsv (original_cwd w </> data_path (data cfg) </> "meta/esc50.csv") ].
Proof.
  intros Hnone. destruct (train_run cfg w) as (fit & -> & _ & Hsetup).
  revert Hsetup. unfold train_setup, train_trace, train_root. rewrite Hnone.
  by intros [-> ->].
Qed.




(** The first thing every run does is log the configuration it was called
    with, and the second is to start the tracking run with the configured
    width, learning rate and sample rate: what is logged are the values
    before the sweep puts its own in their place. *)
Theorem train_logs_given_configuration (cfg : DictConfig float) (w : world) :
  take 2 (events_since w (train cfg w).2)
  = [ EvLoggerInfo cfg;
      EvWandbInit {| wc_base_filters := base_filters (model cfg);
                     wc_lr := lr (optim (model cfg));
                     wc_sample_rate := data_sample_rate (data cfg) |} ].
Proof. by destruct (train_run cfg w) as (fit & -> & _). Qed.

Lemma train_trace_elem (cfg : DictConfig float) (w : world) (e : event) :
  e ∈ train_trace cfg w →
  kind_of e ∈ [KLoggerInfo; KWandbInit; KReadCsv; KDataLoader; KSeedEverything;
               KWandbLogger; KTrainer]
  ∨ e = EvAudioNet (swept_model cfg w)
  ∨ ∃ rows net,
      fs_manifest w (train_root cfg w </> "meta/esc50.csv") = Some rows
      ∧ AudioNet_init (swept_model cfg w) = Ok net
      ∧ loaders_of (train_trace cfg w) = train_loaders cfg w rows
      ∧ e = EvFit net
              {| dl_dataset := train_dataset cfg w rows (train_folds (data cfg));
                 dl_batch_size := batch_size (data cfg); dl_shuffle := true |}
              {| dl_dataset := train_dataset cfg w rows (val_folds (data cfg));
                 dl_batch_size := batch_size (data cfg); dl_shuffle := false |}.
Proof.
  rewrite train_trace_loaders. unfold train_trace, train_loaders.
  destruct (fs_manifest w _) as [rows|];
    [case_decide; [destruct (AudioNet_init _) as [net|err] eqn:Hnet|]|];
    cbn [fmap list_fmap app]; intros He;
    repeat (apply elem_of_cons in He as [->|He];
            [first [ left; cbn [kind_of]; repeat constructor; fail
                   | right; left; reflexivity
                   | right; right; by eexists _, _ ]|]);
    by apply elem_of_nil in He.
Qed.

Lemma train_events_elem (cfg : DictConfig float) (w : world) (e : event) :
  e ∈ events_since w (train cfg w).2 → e ∈ train_trace cfg w ∨ fit_kind e.
Proof.
  destruct (train_run cfg w) as (fit & -> & Hfit & _).
  intros [He|He]%elem_of_app; [by left|right].
  rewrite list.Forall_forall in Hfit. by apply Hfit.
Qed.

Lemma train_events_loaders (cfg : DictConfig float) (w : world) :
  loaders_of (events_since w (train cfg w).2) = loaders_of (train_trace cfg w).
Proof.
  destruct (train_run cfg w) as (fit & -> & Hfit & _).
  by rewrite loaders_of_app, (loaders_of_fit fit), app_nil_r.
Qed.

(** The network that [train] builds, and the optimizer of that network,
    take the width and the learning rate that the sweep injects; the number
    of classes stays the configured one. *)
Theorem train_network_takes_sweep (cfg : DictConfig float) (w : world)
    (hparams : ModelCfg float) :
  EvAudioNet hparams ∈ events_since w (train cfg w).2 →
  let injected :=
    sweep w {| wc_base_filters := base_filters (model cfg);
               wc_lr := lr (optim (model cfg));
               wc_sample_rate := data_sample_rate (data cfg) |} in
  base_filters hparams = wc_base_filters injected
  ∧ num_classes hparams = num_classes (model cfg)
  ∧ adam_lr (configure_optimizers hparams) = wc_lr injected.
Proof.
  intros He injected.
  apply train_events_elem in He as [He|[[=]|[=]]].
  apply train_trace_elem in He as [Hk|[[= ->]|(rows & net & _ & _ & _ & [=])]].
  - cbn [kind_of] in Hk.
    repeat (apply elem_of_cons in Hk as [[=]|Hk]). by apply elem_of_nil in Hk.
  - done.
Qed.

(** The fit of a run is given the network built for the injected
    hyper-parameters, the loader over the train folds, which shuffles, and
    the loader over the validation folds, which does not; the loader over
    the test folds is built third and is not given to the fit. *)
Theorem train_fit_arguments (cfg : DictConfig float) (w : world)
    (net : AudioNet) (train_loader val_loader : DataLoader) :
  EvFit net train_loader val_loader ∈ events_since w (train cfg w).2 →
  ∃ rows test_loader,
    fs_manifest w (original_cwd w </> data_path (data cfg) </> "meta/esc50.csv")
    = Some rows
    ∧ loaders_of (events_since w (train cfg w).2)
      = [train_loader; val_loader; test_loader]
    ∧ dl_shuffle train_loader = true
    ∧ dl_shuffle val_loader = false
    ∧ ds_csv (dl_dataset train_loader)
      = select_isin_fold (train_folds (data cfg)) (frame_of_rows rows)
    ∧ ds_csv (dl_dataset val_loader)
      = select_isin_fold (val_folds (data cfg)) (frame_of_rows rows)
    ∧ ds_csv (dl_dataset test_loader)
      = select_isin_fold (test_folds (data cfg)) (frame_of_rows rows)
    ∧ in_features (fc1 net)
      = wc_base_filters
          (sweep w {| wc_base_filters := base_filters (model cfg);
                      wc_lr := lr (optim (model cfg));
                      wc_sample_rate := data_sample_rate (data cfg) |}) * 4.
Proof.
  intros He. rewrite train_events_loaders.
  apply train_events_elem in He as [He|[[=]|[=]]].
  apply train_trace_elem in He as [Hk|[[=]|(rows & net' & Hm & Hnet & Hl & [= -> -> ->])]].
  - cbn [kind_of] in Hk.
    repeat (apply elem_of_cons in Hk as [[=]|Hk]). by apply elem_of_nil in Hk.
  - eexists rows, _. split; [exact Hm|]. split; [exact Hl|].
    rewrite (AudioNet_init_inv _ _ Hnet). done.
Qed.

End TrainProperties.

(** * The further properties on the small instance *)

Lemma ESC50Dataset_init_rows_witness :
  (∀ l r, (l, r) ∈ ds_csv toy_dataset ↔ toy_rows !! l = Some r ∧ fold r ∈ [1; 2])
  ∧ (ds_csv toy_dataset).*2 `sublist_of` toy_rows
  ∧ 0 ≤ ESC50Dataset_len toy_dataset ≤ 5.
Proof.
  apply (ESC50Dataset_init_rows (Some toy_root) (Some 16000) (Some [1; 2]) toy_world
           (record_event
              (EvReadCsv "/home/user/reprodl/data/ESC-50/meta/esc50.csv") toy_world)
           toy_rows toy_dataset).
  - reflexivity.
  - reflexivity.
Defined.

Lemma ESC50Dataset_init_missing_manifest_witness :
  ESC50Dataset_init None None None toy_world
  = (Raise (FileNotFoundError "data/ESC-50/meta/esc50.csv"),
     record_event (EvReadCsv "data/ESC-50/meta/esc50.csv") toy_world).
Proof.
  apply (ESC50Dataset_init_missing_manifest None None None toy_world).
  reflexivity.
Defined.

Lemma ESC50Dataset_len_disjoint_folds_witness :
  ESC50Dataset_len (toy_dataset_folds [1; 2; 4])
  = ESC50Dataset_len (toy_dataset_folds [1]) + ESC50Dataset_len (toy_dataset_folds [2; 4]).
Proof.
  apply (ESC50Dataset_len_disjoint_folds (Some toy_root) (Some 16000) [1] [2; 4]
           toy_world
           (record_event
              (EvReadCsv "/home/user/reprodl/data/ESC-50/meta/esc50.csv") toy_world)
           (record_event
              (EvReadCsv "/home/user/reprodl/data/ESC-50/meta/esc50.csv") toy_world)
           (record_event
              (EvReadCsv "/home/user/reprodl/data/ESC-50/meta/esc50.csv") toy_world)
           toy_rows).
  - reflexivity.
  - intros x Hx. apply list_elem_of_singleton in Hx as ->.
    rewrite !elem_of_cons, elem_of_nil. lia.
  - reflexivity.
  - reflexivity.
  - reflexivity.
Defined.

Lemma ESC50Dataset_init_folds_as_set_witness :
  ESC50Dataset_init (Some toy_root) None (Some [1; 2]) toy_world
  = ESC50Dataset_init (Some toy_root) None (Some [2; 1; 1]) toy_world.
Proof.
  apply (ESC50Dataset_init_folds_as_set (Some toy_root) None [1; 2] [2; 1; 1] toy_world).
  intros x. rewrite !elem_of_cons, elem_of_nil. tauto.
Defined.

Lemma ESC50Dataset_getitem_negative_witness :
  ESC50Dataset_getitem toy_dataset (- 1) toy_world
  = ESC50Dataset_getitem toy_dataset (ESC50Dataset_len toy_dataset - 1) toy_world.
Proof.
  apply (ESC50Dataset_getitem_negative toy_dataset 1 toy_world).
  vm_compute. split; discriminate.
Defined.

Lemma ESC50Dataset_getitem_out_of_range_witness :
  ESC50Dataset_getitem toy_dataset 3 toy_world = (Raise (IndexError 3), toy_world).
Proof.
  apply (ESC50Dataset_getitem_out_of_range toy_dataset 3 toy_world).
  right. vm_compute. discriminate.
Defined.

Lemma AudioNet_init_wiring_witness :
  in_channels (conv1 toy_net) = 1
  ∧ num_features (bn1 toy_net) = out_channels (conv1 toy_net)
  ∧ in_channels (conv2 toy_net) = out_channels (conv1 toy_net)
  ∧ num_features (bn2 toy_net) = out_channels (conv2 toy_net)
  ∧ in_channels (conv3 toy_net) = out_channels (conv2 toy_net)
  ∧ num_features (bn3 toy_net) = out_channels (conv3 toy_net)
  ∧ in_channels (conv4 toy_net) = out_channels (conv3 toy_net)
  ∧ num_features (bn4 toy_net) = out_channels (conv4 toy_net)
  ∧ in_features (fc1 toy_net) = out_channels (conv4 toy_net)
  ∧ out_features (fc1 toy_net) = 50
  ∧ ∀ c n, c ∈ [conv1 toy_net; conv2 toy_net; conv3 toy_net; conv4 toy_net] →
           conv_out (kernel_size c) (padding c) n = n.
Proof.
  apply (AudioNet_init_wiring (FW := toy) (model toy_cfg) toy_net).
  reflexivity.
Defined.

Lemma AudioNet_forward_accepts_witness :
  is_Ok (run_shape (forward toy_net) [5; 3; 200; 100]) = true
  ↔ 3 = 1 ∧ 4 ≤ 200 ∧ 4 ≤ 100.
Proof.
  apply (AudioNet_forward_accepts (FW := toy) (model toy_cfg) toy_net 5 3 200 100).
  reflexivity.
Defined.

Lemma validation_step_logs_accuracy_witness :
  (validation_step (FW := toy) toy_net ([[1; 5; 2]; [7; 0; 3]], [1; 2]) 0 toy_world).2
  = record_event
      (EvLog "val_acc" (Qc_of_nat 1 / Qc_of_nat 2)%Qc None true true) toy_world
  ∧ (0 ≤ Qc_of_nat 1 / Qc_of_nat 2 ≤ 1)%Qc.
Proof.
  apply (validation_step_logs_accuracy (FW := toy) toy_net
           [[1; 5; 2]; [7; 0; 3]] [1; 2] 0 toy_world
           (validation_step (FW := toy) toy_net
              ([[1; 5; 2]; [7; 0; 3]], [1; 2]) 0 toy_world).2
           (Qc_of_nat 1 / Qc_of_nat 2)%Qc).
  reflexivity.
Defined.

Lemma validation_step_error_logs_nothing_witness :
  (validation_step (FW := toy) toy_net ([[1; 5; 2]], [1; 2]) 0 toy_world).2
  = toy_world.
Proof.
  apply (validation_step_error_logs_nothing (FW := toy) toy_net [[1; 5; 2]] [1; 2] 0
           toy_world _ (ShapeError "accuracy: shape mismatch")).
  reflexivity.
Defined.

Lemma train_missing_manifest_witness :
  (train toy_cfg_nowhere toy_world).1
  = Raise (FileNotFoundError "/home/user/reprodl/nowhere/meta/esc50.csv")
  ∧ events_since toy_world (train toy_cfg_nowhere toy_world).2
    = [ EvLoggerInfo toy_cfg_nowhere;
        EvWandbInit {| wc_base_filters := 32; wc_lr := 1; wc_sample_rate := 22050 |};
        EvReadCsv "/home/user/reprodl/nowhere/meta/esc50.csv" ].
Proof.
  apply (train_missing_manifest (FW := toy) toy_cfg_nowhere toy_world).
  reflexivity.
Defined.

Lemma train_network_takes_sweep_witness :
  base_filters toy_swept_hparams = 16
  ∧ num_classes toy_swept_hparams = 50
  ∧ adam_lr (configure_optimizers (FW := toy) toy_swept_hparams) = 1.
Proof.
  apply (train_network_takes_sweep (FW := toy) toy_cfg toy_world toy_swept_hparams).
  vm_compute. repeat constructor.
Defined.

Lemma train_fit_arguments_witness :
  ∃ rows test_loader,
    fs_manifest toy_world "/home/user/reprodl/data/ESC-50/meta/esc50.csv" = Some rows
    ∧ loaders_of (events_since toy_world (train toy_cfg toy_world).2)
      = [toy_loader [1; 2; 3] true; toy_loader [4] false; test_loader]
    ∧ dl_shuffle (toy_loader [1; 2; 3] true) = true
    ∧ dl_shuffle (toy_loader [4] false) = false
    ∧ ds_csv (dl_dataset (toy_loader [1; 2; 3] true))
      = select_isin_fold [1; 2; 3] (frame_of_rows rows)
    ∧ ds_csv (dl_dataset (toy_loader [4] false))
      = select_isin_fold [4] (frame_of_rows rows)
    ∧ ds_csv (dl_dataset test_loader) = select_isin_fold [5] (frame_of_rows rows)
    ∧ in_features (fc1 toy_swept_net) = 16 * 4.
Proof.
  apply (train_fit_arguments (FW := toy) toy_cfg toy_world toy_swept_net
           (toy_loader [1; 2; 3] true) (toy_loader [4] false)).
  vm_compute. repeat constructor.
Defined.
